(** * Stack items of the TeX input jax (BaseItems.ts)

    A shallow embedding of the stack items that drive the shift-reduce
    parser of the TeX input jax, and the properties of their [checkItem]
    reductions.  Every item class of [BaseItems.ts] that a property below
    talks about is translated method by method; the helpers that live in
    other files of the repository ([TreeHelper], [ParseUtil], the base
    class of the items) are either modelled from the specification or
    taken as the fields of a class of helpers, over which every property
    is proved. *)

From stdpp Require Import gmap strings list fin_maps pretty.
From Stdlib Require Import Ascii ZArith.

Local Open Scope Z_scope.

(** ** JavaScript values *)

(** The text held by a text node is a JavaScript string: a sequence of
    UTF-16 code units, so that [length] is what [c.length] reads.  Keys,
    kinds, delimiters and attribute values that the items write are ASCII
    and are kept as [string]. *)
Abbreviation JsString := (list N).

(** The members of [TEXCLASS] (MmlNode.js), kept symbolic. *)
Inductive TEXCLASS :=
| ORD | OP | BIN | REL | OPEN | CLOSE | PUNCT | INNER | VCENTER | NONE.

(** A tree node is an element (type tag, attribute mapping, child slots) or
    a text node.  A child slot may be empty: JavaScript arrays written by
    index have holes.  [Value] is what a property bag holds: a string, a
    number, a boolean, a TeX class or a node. *)
#[warnings="-register-all"] Inductive MmlNode :=
| Elem (kind : string) (attributes : gmap string Value)
       (childNodes : list (option MmlNode))
| Text (text : JsString)
with Value :=
| VStr (s : string)
| VNum (z : Z)
| VBool (b : bool)
| VClass (c : TEXCLASS)
| VNode (n : MmlNode).

Abbreviation PropertyList := (gmap string Value).

(** JavaScript truthiness of a possibly undefined value. *)
Definition truthy (v : option Value) : bool :=
  match v with
  | None => false
  | Some (VStr s) => negb (String.eqb s "")
  | Some (VNum z) => negb (z =? 0)
  | Some (VBool b) => b
  | Some (VClass _) => true
  | Some (VNode _) => true
  end.


(** ** Tree helper (node builder) *)

(** [TreeHelper] lives outside BaseItems.ts; its functions are modelled
    from the contract the specification gives for the node
    builder: element nodes are created from a type tag, children, attributes
    and an optional text child; a node has one mapping of attributes,
    written by [setAttribute] and [setProperties] alike and read by
    [getAttribute] and [getProperty]; [setData] is the specification's
    [setChildAt(index, node)]. *)

(** Modelled from the spec: [TreeHelper.createText], a text node holding a
    string payload. *)
Definition createText (s : JsString) : MmlNode := Text s.

(** Modelled from the spec: [TreeHelper.createNode], the specification's
    [createElementNode(type, children, attributes, textContent?)]; the text
    comes after the children. *)
Definition createNode (kind : string) (children : list (option MmlNode))
    (def : PropertyList) (text : option MmlNode) : MmlNode :=
  Elem kind def
       (children ++ match text with Some t => [Some t] | None => [] end).

(** Modelled from the spec: [TreeHelper.isType], the query on the type tag
    of a node. *)
Definition isType (node : MmlNode) (kind : string) : bool :=
  match node with
  | Elem k _ _ => String.eqb k kind
  | Text _ => String.eqb "text" kind
  end.

(** Modelled from the spec: [TreeHelper.getChildren], the ordered sequence
    of child nodes; a text node has none. *)
Definition getChildren (node : MmlNode) : list (option MmlNode) :=
  match node with
  | Elem _ _ cs => cs
  | Text _ => []
  end.

(** Modelled from the spec: [TreeHelper.getProperty] and
    [TreeHelper.getAttribute] read the attribute mapping of a node. *)
Definition getProperty (node : MmlNode) (name : string) : option Value :=
  match node with
  | Elem _ attrs _ => attrs !! name
  | Text _ => None
  end.

Definition getAttribute := getProperty.

(** Modelled from the spec: [TreeHelper.setProperties] writes every entry
    of a property list into the attribute mapping. *)
Definition setProperties (node : MmlNode) (props : PropertyList) : MmlNode :=
  match node with
  | Elem k attrs cs => Elem k (props ∪ attrs) cs
  | Text s => Text s
  end.

(** Modelled from the spec: [TreeHelper.setAttribute], the specification's
    [setAttribute]. *)
Definition setAttribute (node : MmlNode) (name : string) (v : Value)
    : MmlNode :=
  match node with
  | Elem k attrs cs => Elem k (<[name := v]> attrs) cs
  | Text s => Text s
  end.

(** [a[i] = x] on a JavaScript array: an index past the end extends the
    array, the slots in between staying empty. *)
Definition js_set {A} (l : list (option A)) (i : nat) (x : option A)
    : list (option A) :=
  if decide (i < length l)%nat then <[i := x]> l
  else l ++ replicate (i - length l) None ++ [x].

(** Modelled from the spec: [TreeHelper.setData], the specification's
    [setChildAt(index, node)].  A position that is not an index of an array
    (negative) names no child slot. *)
Definition setData (node : MmlNode) (position : Z) (child : option MmlNode)
    : MmlNode :=
  match node with
  | Elem k attrs cs =>
      if position <? 0 then node
      else Elem k attrs (js_set cs (Z.to_nat position) child)
  | Text s => Text s
  end.

(** Modelled from the spec: [TreeHelper.appendChildren] adds nodes at the
    end of the ordered sequence of children. *)
Definition appendChildren (node : MmlNode) (children : list (option MmlNode))
    : MmlNode :=
  match node with
  | Elem k attrs cs => Elem k attrs (cs ++ children)
  | Text s => Text s
  end.

(** [node.childNodes[i]]: the child in slot [i], undefined when the slot is
    empty or past the end. *)
Definition childAt (node : MmlNode) (i : nat) : option MmlNode :=
  default None (getChildren node !! i).

(** Modelled from the spec: [TreeHelper.getText], the text of a token node:
    the string payloads of its text children, in order. *)
Definition getText (node : MmlNode) : JsString :=
  match node with
  | Text s => s
  | Elem _ _ cs =>
      concat (map (fun c => match c with
                            | Some (Text s) => s
                            | _ => []
                            end) cs)
  end.

(** Modelled from the spec: the slots of a sub/superscript base node, sub at
    position 1 and sup at position 2 ([MmlMsubsup.sup], msubsup.js). *)
Definition sup : Z := 2.

(** [Entities.ENTITIES.ApplyFunction]: the invisible operator U+2061, as the
    remark kept next to its use in [FnItem.checkItem] spells it. *)
Definition ApplyFunction : JsString := [8289%N].

(** ** Stack items *)

(** The [kind] tags of the item classes of BaseItems.ts. *)
Inductive Kind :=
| K_start | K_stop | K_open | K_close | K_prime | K_subsup | K_over
| K_left | K_right | K_begin | K_end | K_style | K_position | K_array
| K_cell | K_mml | K_fn | K_not | K_dots.

#[global] Instance Kind_eq_dec : EqDecision Kind.
Proof. solve_decision. Defined.

Definition kind_name (k : Kind) : string :=
  match k with
  | K_start => "start" | K_stop => "stop" | K_open => "open"
  | K_close => "close" | K_prime => "prime" | K_subsup => "subsup"
  | K_over => "over" | K_left => "left" | K_right => "right"
  | K_begin => "begin" | K_end => "end" | K_style => "style"
  | K_position => "position" | K_array => "array" | K_cell => "cell"
  | K_mml => "mml" | K_fn => "fn" | K_not => "not" | K_dots => "dots"
  end.

(** What [new TexError([id, message, ...args])] is given.  An argument is
    a name read off an item, which may be undefined. *)
Record TexErrorInput := MkTexError {
  err_id : string;
  err_message : string;
  err_args : list (option string)
}.

(** What a [checkItem] can throw: a [TexError] (built from an entry of an
    error table, undefined when the table has no such entry), the generic
    stack mismatch of the base class, or JavaScript's own [TypeError] on a
    member access on undefined. *)
Inductive Thrown :=
| TexError (input : option TexErrorInput)
| StackMismatch
| TypeError.

Inductive Result (A : Type) :=
| Ok (a : A)
| Throw (e : Thrown).
Arguments Ok {A} a.
Arguments Throw {A} e.

#[global] Instance Result_ret : MRet Result := fun A a => Ok a.

#[global] Instance Result_bind : MBind Result := fun A B k r =>
  match r with
  | Ok a => k a
  | Throw e => Throw e
  end.

(** The state every item has (BaseItem): its kind, its payload of nodes, its
    property bag and its table of errors by close kind. *)
Record StackItem := MkItem {
  kind : Kind;
  nodes : list MmlNode;
  properties : PropertyList;
  errors : gmap string TexErrorInput
}.

(** An entry of the array a [checkItem] returns: a node or an item. *)
Inductive StackEntry :=
| ENode (n : MmlNode)
| EItem (i : StackItem).

(** [CheckType]: a boolean, one item, an array of nodes and items; or
    nothing, where a method falls off its end. *)
Inductive CheckType :=
| CBool (b : bool)
| CItem (i : StackItem)
| CList (l : list StackEntry)
| CUndefined.

Definition isKind (item : StackItem) (k : Kind) : bool :=
  bool_decide (kind item = k).

(** The [isOpen], [isClose] and [isFinal] getters, class by class. *)
Definition isOpen (item : StackItem) : bool :=
  match kind item with
  | K_start | K_open | K_left | K_begin | K_array => true
  | _ => false
  end.

Definition isClose (item : StackItem) : bool :=
  match kind item with
  | K_stop | K_close | K_over | K_right | K_end | K_cell => true
  | _ => false
  end.

Definition isFinal (item : StackItem) : bool :=
  match kind item with
  | K_mml => true
  | _ => false
  end.

Definition itemProperty (item : StackItem) (name : string) : option Value :=
  properties item !! name.

Definition setProperty (item : StackItem) (name : string) (v : Value)
    : StackItem :=
  MkItem (kind item) (nodes item) (<[name := v]> (properties item))
         (errors item).

Definition setError (item : StackItem) (name : string) (e : TexErrorInput)
    : StackItem :=
  MkItem (kind item) (nodes item) (properties item)
         (<[name := e]> (errors item)).

(** The casts of the source: [as string], [as number], [as MmlNode].  A
    property of another type than the cast names is outside what the
    TypeScript types allow and is read as undefined. *)
Definition asString (v : option Value) : option string :=
  match v with Some (VStr s) => Some s | _ => None end.

Definition asNumber (v : option Value) : option Z :=
  match v with Some (VNum z) => Some z | _ => None end.

Definition asNode (v : option Value) : option MmlNode :=
  match v with Some (VNode n) => Some n | _ => None end.

(** [v === z] for a number literal [z]. *)
Definition strictEqNum (v : option Value) (z : Z) : bool :=
  match v with
  | Some (VNum n) => n =? z
  | _ => false
  end.

Definition getName (item : StackItem) : option string :=
  asString (itemProperty item "name").

(** [Top] is the first node of the payload and [TopN(n)] its first [n]
    nodes: the remarks kept in the source give [item.data[0]] for
    [item.Top] and [msup(data[0], data[1])] for the two nodes of
    [TopN(2)]. *)
Definition Top (item : StackItem) : option MmlNode := head (nodes item).

Definition TopN (n : nat) (item : StackItem) : list MmlNode :=
  take n (nodes item).

Definition setTop (item : StackItem) (n : MmlNode) : StackItem :=
  MkItem (kind item)
         (match nodes item with [] => [n] | _ :: ns => n :: ns end)
         (properties item) (errors item).

Definition Size (item : StackItem) : Z := Z.of_nat (length (nodes item)).

Definition Clear (item : StackItem) : StackItem :=
  MkItem (kind item) [] (properties item) (errors item).

(** ** What the items call outside BaseItems.ts *)

(** The helpers below live in other files and the specification does not
    pin them down; the items are defined, and their
    properties proved, for every implementation of them.
    - [base_errors]: the error table a freshly constructed item starts with;
    - [toMml nodes inferred]: [BaseItem.toMml], one node built from the
      payload;
    - [fenced], [fixedFence]: the two fence builders of [ParseUtil];
    - [isEmbellished], [getCoreMO], [getForm]: the operator queries of
      [TreeHelper]; a form is an entry of the operator dictionary, whose
      third component is read as [form[2]];
    - [toStr]: JavaScript's conversion of a value to a string. *)
Class Helpers := {
  base_errors : gmap string TexErrorInput;
  toMml : list MmlNode -> bool -> MmlNode;
  fenced : option Value -> MmlNode -> option Value -> MmlNode;
  fixedFence : option Value -> MmlNode -> option Value -> MmlNode;
  isEmbellished : MmlNode -> bool;
  getCoreMO : MmlNode -> MmlNode;
  getForm : MmlNode -> option (Z * Z * Z);
  toStr : option Value -> string
}.

(** A member access on an undefined node raises [TypeError]. *)
Definition defined {A} (o : option A) : Result A :=
  match o with
  | Some a => Ok a
  | None => Throw TypeError
  end.

Module BaseItem.

(** Modelled from the spec: [new BaseItem(factory, ...nodes)] for the
    class of kind [k]; the payload is the nodes given, the property bag
    is empty and the error table is the one every item starts with. *)
Definition new `{!Helpers} (k : Kind) (ns : list MmlNode) : StackItem :=
  MkItem k ns ∅ base_errors.

(** Modelled from the spec: [BaseItem.checkItem] (StackItem.ts), by the
    default behaviour the specification gives for it: if the incoming item
    is a close item and an error is registered for its kind, fail with that
    error; if it is a close item and none is registered, signal the generic
    stack mismatch; otherwise treat it as an implicit open and return
    [true]. *)
Definition checkItem (self item : StackItem) : Result CheckType :=
  if isClose item then
    match errors self !! kind_name (kind item) with
    | Some e => Throw (TexError (Some e))
    | None => Throw StackMismatch
    end
  else Ok (CBool true).

End BaseItem.

Module MmlItem.

(** Modelled from the spec: [factory.create('mml', node)], the transient
    carrier wrapping exactly one completed tree node. *)
Definition new `{!Helpers} (node : MmlNode) : StackItem :=
  BaseItem.new K_mml [node].

End MmlItem.

Module PrimeItem.

Definition checkItem (self item : StackItem) : Result CheckType :=
  let tops := TopN 2 self in
  let top0 := tops !! 0%nat in
  let top1 := tops !! 1%nat in
  top0 ← defined top0;
  if negb (isType top0 "msubsup") then
    let node := createNode "msup" [Some top0; top1] ∅ None in
    Ok (CList [ENode node; EItem item])
  else
    let top0 := setData top0 sup top1 in
    Ok (CList [ENode top0; EItem item]).

End PrimeItem.

(** JavaScript truthiness of what a [checkItem] returned. *)
Definition truthyCheck (c : CheckType) : bool :=
  match c with
  | CBool b => b
  | CItem _ | CList _ => true
  | CUndefined => false
  end.

Module SubsupItem.

Definition MissingScript : TexErrorInput :=
  MkTexError "MissingScript" "Missing superscript or subscript argument" [].
Definition MissingOpenForSup : TexErrorInput :=
  MkTexError "MissingOpenForSup" "Missing open brace for superscript" [].
Definition MissingOpenForSub : TexErrorInput :=
  MkTexError "MissingOpenForSub" "Missing open brace for subscript" [].

Definition new `{!Helpers} (ns : list MmlNode) : StackItem :=
  let self := BaseItem.new K_subsup ns in
  let self := setError self "stop" MissingScript in
  let self := setError self "sup" MissingOpenForSup in
  setError self "sub" MissingOpenForSub.

(** The key [['', 'sub', 'sup'][position]]; an index outside the array
    reads undefined, which as a key is the string "undefined". *)
Definition scriptKey (position : option Value) : string :=
  match asNumber position with
  | Some 0 => ""
  | Some 1 => "sub"
  | Some 2 => "sup"
  | _ => "undefined"
  end.

Definition checkItem `{!Helpers} (self item : StackItem)
    : Result CheckType :=
  if isKind item K_open || isKind item K_left then Ok (CBool true)
  else
    let top := Top self in
    let position := itemProperty self "position" in
    if isKind item K_mml then
      let primes := itemProperty self "primes" in
      '(top, item) ←
        (if truthy primes then
           if negb (strictEqNum position 2) then
             top ← defined top;
             Ok (Some (setData top 2 (asNode primes)), item)
           else
             primes ← defined (asNode primes);
             let primes := setProperties primes {["variantForm" := VBool true]} in
             let node := createNode "mrow" [Some primes; Top item] ∅ None in
             Ok (top, setTop item node)
         else Ok (top, item));
      top ← defined top;
      let top := match asNumber position with
                 | Some p => setData top p (Top item)
                 | None => top
                 end in
      let top := match itemProperty self "movesupsub" with
                 | Some v => setProperties top {["movesupsub" := v]}
                 | None => top
                 end in
      Ok (CItem (MmlItem.new top))
    else
      r ← BaseItem.checkItem self item;
      if truthyCheck r then
        Throw (TexError (errors self !! scriptKey position))
      else Ok CUndefined.

End SubsupItem.

Module OverItem.

Definition new `{!Helpers} : StackItem :=
  setProperty (BaseItem.new K_over []) "name" (VStr "\over").

Definition AmbiguousUseOf (name : option string) : TexErrorInput :=
  MkTexError "AmbiguousUseOf" "Ambiguous use of %1" [name].

Definition checkItem `{!Helpers} (self item : StackItem)
    : Result CheckType :=
  if isKind item K_over then
    Throw (TexError (Some (AmbiguousUseOf (getName item))))
  else if isClose item then
    let mml := createNode "mfrac"
                 [asNode (itemProperty self "num");
                  Some (toMml (nodes self) false)] ∅ None in
    let mml := match itemProperty self "thickness" with
               | Some thickness => setAttribute mml "linethickness" thickness
               | None => mml
               end in
    let mml := if truthy (itemProperty self "open")
                  || truthy (itemProperty self "close")
               then
                 let mml := setProperties mml {["withDelims" := VBool true]} in
                 fixedFence (itemProperty self "open") mml
                            (itemProperty self "close")
               else mml in
    Ok (CList [EItem (MmlItem.new mml); EItem item])
  else BaseItem.checkItem self item.

End OverItem.

Module LeftItem.

Definition ExtraLeftMissingRight : TexErrorInput :=
  MkTexError "ExtraLeftMissingRight" "Extra \left or missing \right" [].

Definition new `{!Helpers} : StackItem :=
  let self := setProperty (BaseItem.new K_left []) "delim" (VStr "(") in
  setError self "stop" ExtraLeftMissingRight.

Definition checkItem `{!Helpers} (self item : StackItem)
    : Result CheckType :=
  if isKind item K_right then
    Ok (CItem (MmlItem.new
                 (fenced (itemProperty self "delim")
                         (toMml (nodes self) true)
                         (itemProperty item "delim"))))
  else BaseItem.checkItem self item.

End LeftItem.

Module RightItem.

Definition new `{!Helpers} : StackItem :=
  setProperty (BaseItem.new K_right []) "delim" (VStr ")").

End RightItem.

Module BeginItem.

Definition EnvBadEnd (begin_name end_name : option string)
    : TexErrorInput :=
  MkTexError "EnvBadEnd" "\begin{%1} ended with \end{%2}"
             [begin_name; end_name].

Definition EnvMissingEnd (name : option string) : TexErrorInput :=
  MkTexError "EnvMissingEnd" "Missing \end{%1}" [name].

Definition checkItem `{!Helpers} (self item : StackItem)
    : Result CheckType :=
  if isKind item K_end then
    if negb (bool_decide (getName item = getName self)) then
      Throw (TexError (Some (EnvBadEnd (getName self) (getName item))))
    else if negb (truthy (itemProperty self "end")) then
      Ok (CItem (MmlItem.new (toMml (nodes self) true)))
    else Ok CUndefined
  else if isKind item K_stop then
    Throw (TexError (Some (EnvMissingEnd (getName self))))
  else BaseItem.checkItem self item.

End BeginItem.

Module FnItem.

(** The table [[0, 0, 1, 1, 0, 1, 1, 0, 0, 0]] read at [form[2]]; an
    index outside the table reads undefined, which is falsy. *)
Definition formTable : list Z := [0; 0; 1; 1; 0; 1; 1; 0; 0; 0].

Definition formEntry (i : Z) : bool :=
  if i <? 0 then false
  else match formTable !! Z.to_nat i with
       | Some e => negb (e =? 0)
       | None => false
       end.

Definition applyFunctionNode : MmlNode :=
  createNode "mo" [] {["texClass" := VClass NONE]}
             (Some (createText ApplyFunction)).

Definition checkItem `{!Helpers} (self item : StackItem)
    : Result CheckType :=
  match Top self with
  | Some top =>
      if isOpen item then Ok (CBool true)
      else
        let insert := Ok (CList [ENode top; ENode applyFunctionNode;
                                 EItem item]) in
        let keep := Ok (CList [ENode top; EItem item]) in
        if negb (isKind item K_fn) then
          match Top item with
          | Some mml =>
              if negb (isKind item K_mml) then keep
              else if isType mml "mspace" then keep
              else
                let mml := if isEmbellished mml then getCoreMO mml
                           else mml in
                match getForm mml with
                | Some (_, _, form2) =>
                    if formEntry form2 then keep else insert
                | None => insert
                end
          | None => keep
          end
        else insert
  | None => BaseItem.checkItem self item
  end.

End FnItem.

(** Modelled from the spec: the character-remap table answers
    [contains(char)] and [lookup(char)], the replacement glyph; it is a
    finite map from a character to its glyph. *)
Abbreviation CharacterMap := (gmap JsString JsString).

Module NotItem.

Definition combiningSlash : JsString := [824%N].   (* U+0338 *)
Definition bigSolidus : JsString := [10744%N].     (* U+29F8 *)

(** The struck-through construction [\mathrel{\rlap{\notChar}}]. *)
Definition overlay : MmlNode :=
  let textNode := createText bigSolidus in
  let mtextNode := createNode "mtext" [] ∅ (Some textNode) in
  let paddedNode := createNode "mpadded" [Some mtextNode]
                               {["width" := VNum 0]} None in
  createNode "TeXAtom" [Some paddedNode] {["texClass" := VClass REL]} None.

Definition checkItem (remap : CharacterMap) (self item : StackItem)
    : Result CheckType :=
  if isKind item K_open || isKind item K_left then Ok (CBool true)
  else
    let fallback := Ok (CList [ENode overlay; EItem item]) in
    if isKind item K_mml then
      mml ← defined (Top item);
      if isType mml "mo" || isType mml "mi" || isType mml "mtext" then
        let c := getText mml in
        if bool_decide (length c = 1%nat)
           && negb (truthy (getProperty mml "movesupsub"))
           && bool_decide (length (getChildren mml) = 1%nat)
        then
          match remap !! c with
          | Some char =>
              let mml := setData mml 0 (Some (createText char)) in
              Ok (CItem (setTop item mml))
          | None =>
              let mml := appendChildren mml
                           [Some (createText combiningSlash)] in
              Ok (CItem (setTop item mml))
          end
        else fallback
      else fallback
    else fallback.

End NotItem.

(** ** Strings split and joined at spaces *)

(** [s.split(/ /)]: the pieces of [s] between single spaces; never empty. *)
Fixpoint split (s : string) : list string :=
  match s with
  | EmptyString => [EmptyString]
  | String c rest =>
      if Ascii.eqb c " "%char then EmptyString :: split rest
      else match split rest with
           | piece :: pieces => String c piece :: pieces
           | [] => [String c EmptyString]
           end
  end.

(** [a.join(' ')]. *)
Fixpoint join (pieces : list string) : string :=
  match pieces with
  | [] => ""
  | [piece] => piece
  | piece :: rest => piece +:+ " " +:+ join rest
  end.

(** [a.pop()], for what is left in the array. *)
Definition pop {A} (l : list A) : list A := removelast l.

Module ArrayItem.

(** An array item: the state of every item and the fields the class
    adds. *)
Record t := Mk {
  base : StackItem;
  table : list MmlNode;
  row : list MmlNode;
  frame : list string;
  hfill : list Z;
  copyEnv : bool;
  arraydef : PropertyList;
  dashed : bool
}.

Definition new `{!Helpers} : t :=
  Mk (BaseItem.new K_array []) [] [] [] [] false ∅ false.

Definition EndEntry (self : t) : t :=
  let mtd := createNode "mtd" (Some <$> nodes (base self)) ∅ None in
  let mtd :=
    match hfill self with
    | [] => mtd
    | first :: _ =>
        let mtd := if first =? 0
                   then setAttribute mtd "columnalign" (VStr "right")
                   else mtd in
        if bool_decide (last (hfill self) = Some (Size (base self))) then
          setAttribute mtd "columnalign"
            (if truthy (getAttribute mtd "columnalign")
             then VStr "center" else VStr "left")
        else mtd
    end in
  Mk (Clear (base self)) (table self) (row self ++ [mtd]) (frame self)
     [] (copyEnv self) (arraydef self) (dashed self).

Definition EndRow (self : t) : t :=
  let node :=
    if truthy (itemProperty (base self) "isNumbered")
       && bool_decide (length (row self) = 3%nat)
    then
      let cells := match last (row self) with
                   | Some cell => cell :: pop (row self)
                   | None => row self
                   end in
      createNode "mlabeledtr" (Some <$> cells) ∅ None
    else createNode "mtr" (Some <$> row self) ∅ None in
  Mk (base self) (table self ++ [node]) [] (frame self) (hfill self)
     (copyEnv self) (arraydef self) (dashed self).

(** The first half of [checkLines]: the row lines. *)
Definition checkRowlines (self : t) : Result t :=
  let rowlines := arraydef self !! "rowlines" in
  if truthy rowlines then
    rowlines ← defined (asString rowlines);
    let lines := split rowlines in
    if bool_decide (length lines = length (table self)) then
      Ok (Mk (base self) (table self) (row self) (frame self ++ ["bottom"])
             (hfill self) (copyEnv self)
             (<["rowlines" := VStr (join (pop lines))]> (arraydef self))
             (dashed self))
    else if Z.of_nat (length lines) <? Z.of_nat (length (table self)) - 1
    then
      Ok (Mk (base self) (table self) (row self) (frame self)
             (hfill self) (copyEnv self)
             (<["rowlines" := VStr (rowlines +:+ " none")]> (arraydef self))
             (dashed self))
    else Ok self
  else Ok self.

(** The second half of [checkLines]: the row spacing. *)
Definition checkRowspacing `{!Helpers} (self : t) : Result t :=
  let rowspacing := itemProperty (base self) "rowspacing" in
  if truthy rowspacing then
    spacing ← defined (asString (arraydef self !! "rowspacing"));
    let rows := split spacing in
    let rows := rows ++ replicate (length (table self) - length rows)%nat
                                  (toStr rowspacing +:+ "em") in
    Ok (Mk (base self) (table self) (row self) (frame self) (hfill self)
           (copyEnv self)
           (<["rowspacing" := VStr (join rows)]> (arraydef self))
           (dashed self))
  else Ok self.

Definition checkLines `{!Helpers} (self : t) : Result t :=
  self ← checkRowlines self;
  checkRowspacing self.

Definition EndTable `{!Helpers} (self : t) : Result t :=
  let self := if negb (Size (base self) =? 0)
                 || negb (bool_decide (length (row self) = 0%nat))
              then EndRow (EndEntry self)
              else self in
  checkLines self.

End ArrayItem.

(** ** A plain implementation of the helpers

    One implementation of [Helpers], to run the items on concrete input:
    no error is registered by default, [toMml] hands back a lone node and
    wraps anything else in a row, a fence is an [mrow] that keeps its two
    delimiters as attributes, the operators are the bare [mo] nodes, and
    the operator dictionary knows [+] (class 2) and [=] (class 3). *)
Module Plain.

Definition delimiters (open close : option Value) : PropertyList :=
  let attrs := match open with
               | Some v => {["open" := v]}
               | None => ∅
               end in
  match close with
  | Some v => <["close" := v]> attrs
  | None => attrs
  end.

Definition row (ns : list MmlNode) (inferred : bool) : MmlNode :=
  match ns with
  | [n] => n
  | _ => createNode (if inferred then "inferredMrow" else "mrow")
                    (Some <$> ns) ∅ None
  end.

Definition form (n : MmlNode) : option (Z * Z * Z) :=
  if isType n "mo" then
    match getText n with
    | [43%N] => Some (4, 4, 2)
    | [61%N] => Some (5, 5, 3)
    | _ => None
    end
  else None.

Definition str (v : option Value) : string :=
  match v with
  | Some (VStr s) => s
  | Some (VNum z) => pretty z
  | Some (VBool true) => "true"
  | Some (VBool false) => "false"
  | Some (VClass _) | Some (VNode _) => "[object Object]"
  | None => "undefined"
  end.

Definition helpers : Helpers := {|
  base_errors := ∅;
  toMml := row;
  fenced := fun open mml close =>
    createNode "mrow" [Some mml] (delimiters open close) None;
  fixedFence := fun open mml close =>
    createNode "mrow" [Some mml] (delimiters open close) None;
  isEmbellished := fun n => isType n "mo";
  getCoreMO := fun n => n;
  getForm := form;
  toStr := str
|}.

(** Token nodes to build examples with. *)
Definition token (kind : string) (text : JsString) : MmlNode :=
  createNode kind [] ∅ (Some (createText text)).

End Plain.

(** ** Items to run the reductions on *)

Module Examples.

Definition token := Plain.token.
Definition a : MmlNode := token "mi" [97%N].
Definition b : MmlNode := token "mi" [98%N].

(** An item as it is once nodes have been pushed on it. *)
Definition holding (item : StackItem) (ns : list MmlNode) : StackItem :=
  MkItem (kind item) ns (properties item) (errors item).

Definition plain (k : Kind) (ns : list MmlNode) : StackItem :=
  BaseItem.new (H := Plain.helpers) k ns.

Definition named (k : Kind) (name : string) (ns : list MmlNode)
    : StackItem :=
  setProperty (plain k ns) "name" (VStr name).

Definition over : StackItem := OverItem.new (H := Plain.helpers).

(** [a \choose b] at its closing brace: a fraction without a line, in
    parentheses. *)
Definition choose : StackItem :=
  let self := holding over [b] in
  let self := setProperty self "num" (VNode a) in
  let self := setProperty self "thickness" (VStr "0") in
  let self := setProperty self "open" (VStr "(") in
  setProperty self "close" (VStr ")").

(** [\begin{foo} a], and the items that may meet it. *)
Definition begin_foo : StackItem := named K_begin "foo" [a].
Definition end_foo : StackItem := named K_end "foo" [].
Definition end_bar : StackItem := named K_end "bar" [].
Definition stop : StackItem := plain K_stop [].

(** [\left[ a], and the [\right)] that may meet it. *)
Definition left_bracket : StackItem :=
  setProperty (holding (LeftItem.new (H := Plain.helpers)) [a])
              "delim" (VStr "[").
Definition right_paren : StackItem := RightItem.new (H := Plain.helpers).

Definition prime_glyph : MmlNode := token "mo" [8242%N].
Definition one : MmlNode := token "mn" [49%N].
Definition two : MmlNode := token "mn" [50%N].

(** [a'] : the prime item of a plain base. *)
Definition a_prime : StackItem := plain K_prime [a; prime_glyph].

(** [a_1'] : the prime item of a base that already has scripts. *)
Definition a_sub_1 : MmlNode :=
  createNode "msubsup" [Some a; Some one] ∅ None.
Definition a_sub_1_prime : StackItem :=
  plain K_prime [a_sub_1; prime_glyph].

(** [a'^] and [a'_] : the subsup items of a base with queued primes. *)
Definition script_base : MmlNode := createNode "msubsup" [Some a] ∅ None.
Definition subsup (position : Z) : StackItem :=
  let self := SubsupItem.new (H := Plain.helpers) [script_base] in
  setProperty self "position" (VNum position).
Definition primed (position : Z) : StackItem :=
  setProperty (subsup position) "primes" (VNode prime_glyph).

Definition mml (n : MmlNode) : StackItem :=
  MmlItem.new (H := Plain.helpers) n.

(** [\sin] and [\cos] as function items, and arguments for them. *)
Definition sin : MmlNode := token "mi" [115%N; 105%N; 110%N].
Definition cos : MmlNode := token "mi" [99%N; 111%N; 115%N].
Definition sin_fn : StackItem := plain K_fn [sin].
Definition cos_fn : StackItem := plain K_fn [cos].
Definition x : MmlNode := token "mi" [120%N].
Definition plus : MmlNode := token "mo" [43%N].
Definition equals : MmlNode := token "mo" [61%N].

(** A [\not] item, and a remap table that knows [=]. *)
Definition not : StackItem := plain K_not [].
Definition not_remap : CharacterMap := {[ [61%N] := [8800%N] ]}.

End Examples.

(** An array with one finished row and one cell of a second row pending,
    and its row lines set for one row. *)
Definition two_rows : ArrayItem.t :=
  ArrayItem.Mk
    (MkItem K_array [Examples.b] ∅ ∅)
    [createNode "mtr" [Some (createNode "mtd" [Some (Examples.a)]
                                          ∅ None)] ∅ None]
    [] [] [] false {["rowlines" := VStr "solid"]} false.

(** What padding the row lines up to the row count would mean for the item
    that [EndTable] leaves. *)
Definition rowlines_match_rows (self : ArrayItem.t) : Prop :=
  ∃ s, ArrayItem.arraydef self !! "rowlines" = Some (VStr s)
       ∧ length (split s) = length (ArrayItem.table self).

(** An array with four rows and its row lines set for one row. *)
Definition four_rows : ArrayItem.t :=
  ArrayItem.Mk (MkItem K_array [] ∅ ∅)
    (replicate 4 (createNode "mtr" [] ∅ None))
    [] [] [] false {["rowlines" := VStr "solid"]} false.

(** ** The rest of the item classes *)

Module OpenItem.

Definition ExtraOpenMissingClose : TexErrorInput :=
  MkTexError "ExtraOpenMissingClose"
             "Extra open brace or missing close brace" [].

Definition new `{!Helpers} : StackItem :=
  setError (BaseItem.new K_open []) "stop" ExtraOpenMissingClose.

(** [cleanSubSup] is [TreeHelper.cleanSubSup], which lives in another file
    and is taken as it comes. *)
Definition checkItem `{!Helpers} (cleanSubSup : MmlNode -> MmlNode)
    (self item : StackItem) : Result CheckType :=
  if isKind item K_close then
    let mml := toMml (nodes self) true in
    let mml := cleanSubSup mml in
    let node := createNode "TeXAtom" [Some mml] ∅ None in
    Ok (CItem (MmlItem.new node))
  else BaseItem.checkItem self item.

End OpenItem.

(** An entry of an object literal whose value may be undefined. *)
Definition optionalEntry (name : string) (v : option Value)
    (def : PropertyList) : PropertyList :=
  match v with
  | Some x => <[name := x]> def
  | None => def
  end.

Module PositionItem.

Definition MissingBoxFor (name : option string) : TexErrorInput :=
  MkTexError "MissingBoxFor" "Missing box for %1" [name].

(** The answer is [None] where the array returned would hold an item made
    on an undefined node, which [StackItem] has no counterpart for: a
    horizontal position item is made with both its spacers. *)
Definition checkItem `{!Helpers} (self item : StackItem)
    : option (Result CheckType) :=
  if isClose item then
    Some (Throw (TexError (Some (MissingBoxFor (getName self)))))
  else
    let super := Some (BaseItem.checkItem self item) in
    if isFinal item then
      let mml := toMml (nodes item) true in
      match itemProperty self "move" with
      | Some (VStr move) =>
          if String.eqb move "vertical" then
            let def := optionalEntry "height" (itemProperty self "dh")
                         (optionalEntry "depth" (itemProperty self "dd")
                            (optionalEntry "voffset" (itemProperty self "dh")
                               ∅)) in
            let mml := createNode "mpadded" [Some mml] def None in
            Some (Ok (CList [EItem (MmlItem.new mml)]))
          else if String.eqb move "horizontal" then
            match asNode (itemProperty self "left"),
                  asNode (itemProperty self "right") with
            | Some lspace, Some rspace =>
                Some (Ok (CList [EItem (MmlItem.new lspace); EItem item;
                                 EItem (MmlItem.new rspace)]))
            | _, _ => None
            end
          else super
      | _ => super
      end
    else super.

End PositionItem.

Module DotsItem.

(** [getTexClass] is [TreeHelper.getTexClass], taken as it comes.  The
    answer is [None] where the array returned would hold an undefined
    node: a dots item is made with both its 'ldots' and 'cdots' nodes. *)
Definition checkItem `{!Helpers} (getTexClass : MmlNode -> TEXCLASS)
    (self item : StackItem) : option (Result CheckType) :=
  if isKind item K_open || isKind item K_left then Some (Ok (CBool true))
  else
    let ldots := itemProperty self "ldots" in
    let cdots := itemProperty self "cdots" in
    let push (dots : option Value) :=
      match asNode dots with
      | Some dots => Some (Ok (CList [ENode dots; EItem item]))
      | None => None
      end in
    if isKind item K_mml then
      match Top item with
      | None => Some (Throw TypeError)
      | Some top =>
          if isEmbellished top then
            match getTexClass (getCoreMO top) with
            | BIN | REL => push cdots
            | _ => push ldots
            end
          else push ldots
      end
    else push ldots.

End DotsItem.

Module ArrayCheck.

(** An array item with the environment every item has ([BaseItem.env]),
    which [checkItem] clears. *)
Record t := Mk {
  array : ArrayItem.t;
  env : gmap string Value
}.

Definition clearEnv (self : t) : t := Mk (array self) ∅.

Definition MissingCloseBrace : TexErrorInput :=
  MkTexError "MissingCloseBrace" "Missing close brace" [].

Fixpoint stripPrefix (prefix s : string) : option string :=
  match prefix with
  | EmptyString => Some s
  | String a prefix =>
      match s with
      | String b s => if Ascii.eqb a b then stripPrefix prefix s else None
      | EmptyString => None
      end
  end.

Fixpoint allSpaces (s : string) : bool :=
  match s with
  | EmptyString => true
  | String c s => Ascii.eqb c " " && allSpaces s
  end.

(** Whether [/none( none) + $/] matches at the start of [s]: the text
    "none none", then one space or more, then one more space, then the end
    of the string; that is, "none none" and at least two spaces up to the
    end. *)
Definition matchesHere (s : string) : bool :=
  match stripPrefix "none none" s with
  | Some (String _ (String _ _) as rest) => allSpaces rest
  | _ => false
  end.

(** [s.replace(/none( none) + $/, 'none')]: the leftmost match, which runs
    to the end of the string, is replaced. *)
Fixpoint replaceNone (s : string) : string :=
  match s with
  | EmptyString => EmptyString
  | String c rest =>
      if matchesHere s then "none" else String c (replaceNone rest)
  end.

(** [(v || 'none') !== 'none'] *)
Definition notNone (v : option Value) : bool :=
  truthy v
  && negb match v with
          | Some (VStr s) => String.eqb s "none"
          | _ => false
          end.

Definition withArraydef (self : ArrayItem.t) (arraydef : PropertyList)
    : ArrayItem.t :=
  ArrayItem.Mk (ArrayItem.base self) (ArrayItem.table self)
    (ArrayItem.row self) (ArrayItem.frame self) (ArrayItem.hfill self)
    (ArrayItem.copyEnv self) arraydef (ArrayItem.dashed self).

(** The frame of the finished table, in [checkItem]: with four sides the
    mtable gets a frame attribute; with fewer, and at least one, it is put
    in an menclose. *)
Definition frameTable (arr : ArrayItem.t) (mml : MmlNode)
    : Result (ArrayItem.t * MmlNode) :=
  if bool_decide (length (ArrayItem.frame arr) = 4%nat) then
    Ok (arr, setAttribute mml "frame"
               (VStr (if ArrayItem.dashed arr then "dashed" else "solid")))
  else if negb (bool_decide (length (ArrayItem.frame arr) = 0%nat)) then
    arr ← (let rowlines := ArrayItem.arraydef arr !! "rowlines" in
           if truthy rowlines then
             rowlines ← defined (asString rowlines);
             Ok (withArraydef arr
                   (<["rowlines" := VStr (replaceNone rowlines)]>
                      (ArrayItem.arraydef arr)))
           else Ok arr);
    let mml := createNode "menclose" [Some mml]
                 {["notation" := VStr (join (ArrayItem.frame arr));
                   "isFrame" := VBool true]} None in
    let mml := if notNone (ArrayItem.arraydef arr !! "columnlines")
                  || notNone (ArrayItem.arraydef arr !! "rowlines")
               then setAttribute mml "padding" (VNum 0)
               else mml in
    Ok (arr, mml)
  else Ok (arr, mml).

(** The style and the fence around the finished table, in [checkItem]. *)
Definition wrapTable `{!Helpers} (scriptlevel : option Value)
    (base : StackItem) (mml : MmlNode) : MmlNode :=
  let mml := match scriptlevel with
             | Some level =>
                 if truthy scriptlevel
                 then createNode "mstyle" [Some mml]
                                 {["scriptlevel" := level]} None
                 else mml
             | None => mml
             end in
  if truthy (itemProperty base "open") || truthy (itemProperty base "close")
  then fenced (itemProperty base "open") mml (itemProperty base "close")
  else mml.

(** [checkItem] changes the array item it is called on; the item it leaves
    is handed back with the answer. *)
Definition checkItem `{!Helpers} (self : t) (item : StackItem)
    : Result (t * CheckType) :=
  if isClose item && negb (isKind item K_over) then
    if truthy (itemProperty item "isEntry") then
      let self := clearEnv (Mk (ArrayItem.EndEntry (array self)) (env self)) in
      Ok (self, CBool false)
    else if truthy (itemProperty item "isCR") then
      let arr := ArrayItem.EndRow (ArrayItem.EndEntry (array self)) in
      let self := clearEnv (Mk arr (env self)) in
      Ok (self, CBool false)
    else
      arr ← ArrayItem.EndTable (array self);
      let scriptlevel := ArrayItem.arraydef arr !! "scriptlevel" in
      let arr := withArraydef arr (delete "scriptlevel" (ArrayItem.arraydef arr)) in
      let mml := createNode "mtable" (Some <$> ArrayItem.table arr)
                            (ArrayItem.arraydef arr) None in
      '(arr, mml) ← frameTable arr mml;
      let base := ArrayItem.base arr in
      let mml := wrapTable scriptlevel base mml in
      let newItem := MmlItem.new mml in
      let self := clearEnv (Mk arr (env self)) in
      if truthy (itemProperty base "requireClose") then
        if isKind item K_close then Ok (self, CItem newItem)
        else Throw (TexError (Some MissingCloseBrace))
      else Ok (self, CList [EItem newItem; EItem item])
  else
    r ← BaseItem.checkItem (ArrayItem.base (array self)) item;
    Ok (self, r).

(** The parser pushes the nodes of a cell on the array item before the
    separator that ends the cell arrives. *)
Definition Push (self : t) (ns : list MmlNode) : t :=
  let arr := array self in
  let base := ArrayItem.base arr in
  Mk (ArrayItem.Mk (MkItem (kind base) (nodes base ++ ns) (properties base)
                           (errors base))
                   (ArrayItem.table arr) (ArrayItem.row arr)
                   (ArrayItem.frame arr) (ArrayItem.hfill arr)
                   (ArrayItem.copyEnv arr) (ArrayItem.arraydef arr)
                   (ArrayItem.dashed arr))
     (env self).

(** The cells of a row, each ended by the separator [entry]: the item
    that is left and the answers given to the separators, in order. *)
Fixpoint cells `{!Helpers} (self : t) (entry : StackItem)
    (payloads : list (list MmlNode)) : Result (t * list CheckType) :=
  match payloads with
  | [] => Ok (self, [])
  | payload :: payloads =>
      '(self, answer) ← checkItem (Push self payload) entry;
      '(self, answers) ← cells self entry payloads;
      Ok (self, answer :: answers)
  end.

End ArrayCheck.

(** ** More items to run the reductions on *)

Module Samples.

Definition mtr (cells : list MmlNode) : MmlNode :=
  createNode "mtr" (Some <$> cells) ∅ None.

(** Three rows with a line under the first and under the last. *)
Definition lined : ArrayItem.t :=
  ArrayItem.Mk (Examples.plain K_array [])
    [mtr []; mtr []; mtr []] [] [] [] false
    {["rowlines" := VStr "solid none solid"]} false.

(** One row with a line under it. *)
Definition underlined : ArrayItem.t :=
  ArrayItem.Mk (Examples.plain K_array [])
    [mtr []] [] [] [] false {["rowlines" := VStr "solid"]} false.

(** Three rows, one spacing given, the rest to be filled with 2em. *)
Definition spaced : ArrayItem.t :=
  ArrayItem.Mk (setProperty (Examples.plain K_array []) "rowspacing" (VNum 2))
    [mtr []; mtr []; mtr []] [] [] [] false
    {["rowspacing" := VStr "1em"]} false.

(** An empty array in an environment that sets a style. *)
Definition fresh : ArrayCheck.t :=
  ArrayCheck.Mk (ArrayItem.new (H := Plain.helpers))
                {["displaystyle" := VBool true]}.

(** The separators [&] and [\\], as the parser makes them. *)
Definition entry : StackItem :=
  setProperty (Examples.plain K_cell []) "isEntry" (VBool true).
Definition cr : StackItem :=
  setProperty (Examples.plain K_cell []) "isCR" (VBool true).

(** [\raise 2px] and a horizontal move, with their boxes. *)
Definition raise : StackItem :=
  let self := Examples.named K_position "\raise" [] in
  let self := setProperty self "move" (VStr "vertical") in
  let self := setProperty self "dh" (VStr "2px") in
  setProperty self "dd" (VStr "-2px").
Definition mspace (width : string) : MmlNode :=
  createNode "mspace" [] {["width" := VStr width]} None.
Definition moveleft : StackItem :=
  let self := Examples.named K_position "\moveleft" [] in
  let self := setProperty self "move" (VStr "horizontal") in
  let self := setProperty self "left" (VNode (mspace "-2px")) in
  setProperty self "right" (VNode (mspace "2px")).

(** A dots item, and a reading of the TeX class of the two operators the
    plain dictionary knows. *)
Definition ldots : MmlNode := Examples.token "mo" [8230%N].
Definition cdots : MmlNode := Examples.token "mo" [8943%N].
Definition dots : StackItem :=
  setProperty (setProperty (Examples.plain K_dots []) "ldots" (VNode ldots))
              "cdots" (VNode cdots).
Definition texClass (n : MmlNode) : TEXCLASS :=
  match getText n with
  | [43%N] => BIN
  | [61%N] => REL
  | _ => ORD
  end.

(** An open brace holding [a]. *)
Definition brace : StackItem :=
  Examples.holding (OpenItem.new (H := Plain.helpers)) [Examples.a].

End Samples.

(** ** Predicates on strings used to state the properties *)

(** No space occurs in [s]. *)
Fixpoint noSpace (s : string) : bool :=
  match s with
  | EmptyString => true
  | String c s => negb (Ascii.eqb c " ") && noSpace s
  end.

(** The last character of [s]. *)
Fixpoint lastChar (s : string) : option ascii :=
  match s with
  | EmptyString => None
  | String c EmptyString => Some c
  | String _ s => lastChar s
  end.

(** [s] without the spaces at its end. *)
Fixpoint stripTrailing (s : string) : string :=
  match s with
  | EmptyString => EmptyString
  | String c s =>
      match stripTrailing s with
      | EmptyString => if Ascii.eqb c " " then EmptyString
                       else String c EmptyString
      | kept => String c kept
      end
  end.

(** What [checkLines] leaves alone: everything but the frame and the two
    entries of [arraydef] it is about. *)
Definition linesOnly (self self' : ArrayItem.t) : Prop :=
  ArrayItem.base self' = ArrayItem.base self
  ∧ ArrayItem.table self' = ArrayItem.table self
  ∧ ArrayItem.row self' = ArrayItem.row self
  ∧ ArrayItem.hfill self' = ArrayItem.hfill self
  ∧ ArrayItem.copyEnv self' = ArrayItem.copyEnv self
  ∧ ArrayItem.dashed self' = ArrayItem.dashed self
  ∧ (ArrayItem.frame self' = ArrayItem.frame self
     ∨ ArrayItem.frame self' = ArrayItem.frame self ++ ["bottom"])
  ∧ ∀ key, key ≠ "rowlines" → key ≠ "rowspacing" →
           ArrayItem.arraydef self' !! key = ArrayItem.arraydef self !! key.

(** * Properties *)

(** ** Array items: [checkLines] *)

Lemma split_nonempty (s : string) : split s ≠ [].
Proof.
  destruct s as [|c rest]; simpl; [done|].
  destruct (Ascii.eqb c " "); [done|].
  by destruct (split rest).
Qed.

Lemma split_append_none (s : string) :
  length (split (s +:+ " none")) = S (length (split s)).
Proof.
  induction s as [|c rest IH]; [reflexivity|].
  change (String c rest +:+ " none") with (String c (rest +:+ " none")).
  cbn [split].
  destruct (Ascii.eqb c " "); [by cbn [length]; rewrite IH|].
  pose proof (split_nonempty rest) as Hrest.
  pose proof (split_nonempty (rest +:+ " none")) as Hnone.
  by destruct (split rest), (split (rest +:+ " none")).
Qed.

Lemma truthy_VStr (s : string) : s ≠ "" → truthy (Some (VStr s)) = true.
Proof.
  intros Hs. simpl. apply negb_true_iff. by apply String.eqb_neq.
Qed.

Lemma checkRowspacing_keeps `{!Helpers} (self : ArrayItem.t) :
  (truthy (itemProperty (ArrayItem.base self) "rowspacing") = true →
   is_Some (asString (ArrayItem.arraydef self !! "rowspacing"))) →
  ∃ self', ArrayItem.checkRowspacing self = Ok self'
    ∧ ArrayItem.table self' = ArrayItem.table self
    ∧ ArrayItem.frame self' = ArrayItem.frame self
    ∧ ArrayItem.arraydef self' !! "rowlines"
      = ArrayItem.arraydef self !! "rowlines".
Proof.
  intros Hready. unfold ArrayItem.checkRowspacing.
  destruct (truthy _) eqn:Hspacing; [|by exists self].
  destruct (Hready eq_refl) as [spacing ->]. simpl.
  eexists. split; [reflexivity|]. simpl.
  by rewrite lookup_insert_ne.
Qed.

(** C1, as stated, fails: an array closed with two rows and row lines set
    for one row keeps its one-entry pattern ("solid"); [checkLines] does
    not pad it to the two rows. *)
Lemma EndTable_two_rows_not_padded :
  (∃ s, ArrayItem.arraydef two_rows !! "rowlines" = Some (VStr s)
        ∧ length (split s) = 1%nat)
  ∧ ∃ self', ArrayItem.EndTable (H := Plain.helpers) two_rows = Ok self'
      ∧ length (ArrayItem.table self') = 2%nat
      ∧ ArrayItem.arraydef self' !! "rowlines" = Some (VStr "solid")
      ∧ ¬ rowlines_match_rows self'.
Proof.
  split; [by exists "solid"|].
  eexists. split; [vm_compute; reflexivity|].
  split; [reflexivity|]. split; [reflexivity|].
  intros (s & Hs & Hlen). vm_compute in Hs. injection Hs as <-.
  vm_compute in Hlen. discriminate.
Qed.

(** C1, amended: for an array item whose non-empty rowlines pattern has
    fewer entries than there are accumulated rows, [checkLines] appends
    exactly one "none" entry when the pattern has fewer entries than the
    row count minus one, and leaves the pattern as it is when it has
    exactly the row count minus one; the rows and the frame are kept. *)
Theorem checkLines_rowlines `{!Helpers} (self : ArrayItem.t) (s : string) :
  ArrayItem.arraydef self !! "rowlines" = Some (VStr s) →
  s ≠ "" →
  (length (split s) < length (ArrayItem.table self))%nat →
  (truthy (itemProperty (ArrayItem.base self) "rowspacing") = true →
   is_Some (asString (ArrayItem.arraydef self !! "rowspacing"))) →
  ∃ self' s',
    ArrayItem.checkLines self = Ok self'
    ∧ ArrayItem.table self' = ArrayItem.table self
    ∧ ArrayItem.frame self' = ArrayItem.frame self
    ∧ ArrayItem.arraydef self' !! "rowlines" = Some (VStr s')
    ∧ if bool_decide (length (split s) < length (ArrayItem.table self) - 1)%nat
      then s' = s +:+ " none" ∧ length (split s') = S (length (split s))
      else s' = s.
Proof.
  intros Hlines Hs Hlt Hready.
  unfold ArrayItem.checkLines, ArrayItem.checkRowlines.
  rewrite Hlines, (truthy_VStr s Hs). cbn [asString defined mbind Result_bind].
  rewrite bool_decide_eq_false_2 by lia.
  case_bool_decide as Hfew.
  - rewrite (proj2 (Z.ltb_lt _ _)) by lia. cbn [mbind Result_bind].
    destruct (checkRowspacing_keeps
                (ArrayItem.Mk (ArrayItem.base self) (ArrayItem.table self)
                   (ArrayItem.row self) (ArrayItem.frame self)
                   (ArrayItem.hfill self) (ArrayItem.copyEnv self)
                   (<["rowlines" := VStr (s +:+ " none")]>
                      (ArrayItem.arraydef self))
                   (ArrayItem.dashed self)))
      as (self' & Hrun & Htable & Hframe & Hkeep).
    { cbn [ArrayItem.base ArrayItem.arraydef].
      by rewrite lookup_insert_ne. }
    exists self', (s +:+ " none"). rewrite Hrun, Htable, Hframe, Hkeep.
    cbn [ArrayItem.table ArrayItem.frame ArrayItem.arraydef].
    rewrite lookup_insert_eq. by rewrite split_append_none.
  - rewrite (proj2 (Z.ltb_ge _ _)) by lia. cbn [mbind Result_bind].
    destruct (checkRowspacing_keeps self Hready)
      as (self' & Hrun & Htable & Hframe & Hkeep).
    exists self', s. by rewrite Hrun, Htable, Hframe, Hkeep.
Qed.

Lemma checkLines_rowlines_witness :
  ∃ self' s',
    ArrayItem.checkLines (H := Plain.helpers) four_rows = Ok self'
    ∧ ArrayItem.table self' = ArrayItem.table four_rows
    ∧ ArrayItem.frame self' = ArrayItem.frame four_rows
    ∧ ArrayItem.arraydef self' !! "rowlines" = Some (VStr s')
    ∧ if bool_decide (length (split "solid")
                      < length (ArrayItem.table four_rows) - 1)%nat
      then s' = "solid none" ∧ length (split s') = S (length (split "solid"))
      else s' = "solid".
Proof.
  apply (checkLines_rowlines (H := Plain.helpers) four_rows "solid").
  - reflexivity.
  - discriminate.
  - simpl. lia.
  - intros Hspacing. vm_compute in Hspacing. discriminate.
Defined.

(** ** Over items *)

(** C4: for every over item, [checkItem] on an incoming item of kind
    'over' raises the 'Ambiguous use of %1' error carrying the incoming
    item's name, whatever the over item holds. *)
Theorem OverItem_checkItem_over `{!Helpers} (self item : StackItem) :
  kind item = K_over →
  OverItem.checkItem self item
  = Throw (TexError (Some (MkTexError "AmbiguousUseOf" "Ambiguous use of %1"
                                      [getName item]))).
Proof.
  intros Hover. unfold OverItem.checkItem, isKind.
  by rewrite bool_decide_eq_true_2.
Qed.

(** A second [\over] meeting the over item of a first one. *)
Lemma OverItem_checkItem_over_witness :
  OverItem.checkItem (H := Plain.helpers) Examples.over Examples.over
  = Throw (TexError (Some (MkTexError "AmbiguousUseOf" "Ambiguous use of %1"
                                      [Some "\over"]))).
Proof.
  exact (OverItem_checkItem_over (H := Plain.helpers)
           Examples.over Examples.over eq_refl).
Defined.

(** C9: for every over item receiving a close item other than another
    'over', the reduction builds an mfrac whose first child is the stored
    numerator and whose second child is the rest of the payload built by
    [toMml(false)]; its linethickness attribute is the 'thickness' property
    when that is set; when an 'open' or a 'close' delimiter is set (truthy)
    the mfrac is marked withDelims and wrapped by [fixedFence] with those
    delimiters; the mml item of the result is pushed, then the close item
    itself. *)
Theorem OverItem_checkItem_close `{!Helpers} (self item : StackItem) :
  isClose item = true →
  kind item ≠ K_over →
  let delims := truthy (itemProperty self "open")
                || truthy (itemProperty self "close") in
  ∃ mfrac : MmlNode,
    isType mfrac "mfrac" = true
    ∧ getChildren mfrac = [asNode (itemProperty self "num");
                           Some (toMml (nodes self) false)]
    ∧ getAttribute mfrac "linethickness" = itemProperty self "thickness"
    ∧ getProperty mfrac "withDelims"
      = (if delims then Some (VBool true) else None)
    ∧ OverItem.checkItem self item
      = Ok (CList [EItem (MmlItem.new
                            (if delims
                             then fixedFence (itemProperty self "open") mfrac
                                             (itemProperty self "close")
                             else mfrac));
                   EItem item]).
Proof.
  intros Hclose Hover delims.
  unfold OverItem.checkItem, isKind.
  rewrite bool_decide_eq_false_2 by done. rewrite Hclose.
  fold delims.
  destruct delims, (itemProperty self "thickness") as [thickness|] eqn:Hthick;
    eexists; (repeat split; [..|reflexivity]); try reflexivity; simpl;
    rewrite ?lookup_union, ?lookup_insert_eq, ?lookup_insert_ne,
      ?lookup_singleton_ne, ?lookup_singleton_eq, ?lookup_empty by done;
    done.
Qed.

Lemma OverItem_checkItem_close_witness :
  ∃ mfrac : MmlNode,
    isType mfrac "mfrac" = true
    ∧ getChildren mfrac = [Some Examples.a; Some Examples.b]
    ∧ getAttribute mfrac "linethickness" = Some (VStr "0")
    ∧ getProperty mfrac "withDelims" = Some (VBool true)
    ∧ OverItem.checkItem (H := Plain.helpers) Examples.choose
        (Examples.plain K_close [])
      = Ok (CList [EItem (MmlItem.new (H := Plain.helpers)
                            (fixedFence (Helpers := Plain.helpers)
                               (Some (VStr "(")) mfrac (Some (VStr ")"))));
                   EItem (Examples.plain K_close [])]).
Proof.
  apply (OverItem_checkItem_close (H := Plain.helpers) Examples.choose
           (Examples.plain K_close [])); [reflexivity | discriminate].
Defined.

(** ** Begin items *)

(** C3: for every begin item, [checkItem] on an incoming end item whose
    name differs from the begin item's raises the environment-mismatch
    error carrying both names; on an incoming stop item it raises the
    missing-end error carrying the begin item's name; on an end item with
    the same name, the begin item having no 'end' property, it reduces to
    the single mml item of the node [toMml] builds from the payload. *)
Theorem BeginItem_checkItem_end `{!Helpers} (self item : StackItem) :
  (kind item = K_end → getName item ≠ getName self →
   BeginItem.checkItem self item
   = Throw (TexError (Some (MkTexError "EnvBadEnd"
                              "\begin{%1} ended with \end{%2}"
                              [getName self; getName item]))))
  ∧ (kind item = K_stop →
     BeginItem.checkItem self item
     = Throw (TexError (Some (MkTexError "EnvMissingEnd" "Missing \end{%1}"
                                [getName self]))))
  ∧ (kind item = K_end → getName item = getName self →
     itemProperty self "end" = None →
     ∃ mml : StackItem,
       BeginItem.checkItem self item = Ok (CItem mml)
       ∧ kind mml = K_mml
       ∧ nodes mml = [toMml (nodes self) true]).
Proof.
  unfold BeginItem.checkItem, isKind. repeat split.
  - intros -> Hname. rewrite bool_decide_eq_true_2 by done.
    by rewrite bool_decide_eq_false_2.
  - intros ->. rewrite bool_decide_eq_false_2 by done.
    by rewrite bool_decide_eq_true_2.
  - intros -> Hname Hend. rewrite bool_decide_eq_true_2 by done.
    rewrite (bool_decide_eq_true_2 _ Hname), Hend. simpl. eauto.
Qed.

Lemma BeginItem_checkItem_end_witness :
  BeginItem.checkItem (H := Plain.helpers) Examples.begin_foo Examples.end_bar
  = Throw (TexError (Some (MkTexError "EnvBadEnd"
                             "\begin{%1} ended with \end{%2}"
                             [Some "foo"; Some "bar"])))
  ∧ BeginItem.checkItem (H := Plain.helpers) Examples.begin_foo Examples.stop
    = Throw (TexError (Some (MkTexError "EnvMissingEnd" "Missing \end{%1}"
                               [Some "foo"])))
  ∧ ∃ mml : StackItem,
      BeginItem.checkItem (H := Plain.helpers)
        Examples.begin_foo Examples.end_foo = Ok (CItem mml)
      ∧ kind mml = K_mml
      ∧ nodes mml = [Examples.a].
Proof.
  split; [|split].
  - apply (BeginItem_checkItem_end (H := Plain.helpers)
             Examples.begin_foo Examples.end_bar); [reflexivity|].
    vm_compute. discriminate.
  - by apply (BeginItem_checkItem_end (H := Plain.helpers)
                Examples.begin_foo Examples.stop).
  - apply (BeginItem_checkItem_end (H := Plain.helpers)
             Examples.begin_foo Examples.end_foo); reflexivity.
Defined.

(** ** Left items *)

(** C8: for every left item, [checkItem] on an incoming right item reduces
    to the single mml item of the fenced group that [fenced] builds from
    the left item's delimiter, the payload and the right item's delimiter;
    a left item registers the 'Extra \left or missing \right' error for
    the 'stop' kind, and a left item met by the stop item fails with
    exactly that error. *)
Theorem LeftItem_checkItem_right_stop `{!Helpers} (self item : StackItem) :
  (kind item = K_right →
   ∃ mml : StackItem,
     LeftItem.checkItem self item = Ok (CItem mml)
     ∧ kind mml = K_mml
     ∧ nodes mml = [fenced (itemProperty self "delim")
                           (toMml (nodes self) true)
                           (itemProperty item "delim")])
  ∧ errors LeftItem.new !! "stop"
    = Some (MkTexError "ExtraLeftMissingRight"
                       "Extra \left or missing \right" [])
  ∧ (kind item = K_stop → errors self = errors LeftItem.new →
     LeftItem.checkItem self item
     = Throw (TexError (Some (MkTexError "ExtraLeftMissingRight"
                                "Extra \left or missing \right" [])))).
Proof.
  unfold LeftItem.checkItem, isKind. repeat split.
  - intros ->. rewrite bool_decide_eq_true_2 by done. eauto.
  - apply lookup_insert_eq.
  - intros Hstop Herrors.
    rewrite bool_decide_eq_false_2 by (rewrite Hstop; done).
    unfold BaseItem.checkItem, isClose. rewrite Hstop, Herrors.
    cbn [kind_name LeftItem.new setError errors].
    by rewrite lookup_insert_eq.
Qed.

Lemma LeftItem_checkItem_right_stop_witness :
  (∃ mml : StackItem,
     LeftItem.checkItem (H := Plain.helpers)
       Examples.left_bracket Examples.right_paren = Ok (CItem mml)
     ∧ kind mml = K_mml
     ∧ nodes mml = [fenced (Helpers := Plain.helpers) (Some (VStr "["))
                           Examples.a (Some (VStr ")"))])
  ∧ LeftItem.checkItem (H := Plain.helpers) Examples.left_bracket Examples.stop
    = Throw (TexError (Some (MkTexError "ExtraLeftMissingRight"
                               "Extra \left or missing \right" []))).
Proof.
  split.
  - by apply (LeftItem_checkItem_right_stop (H := Plain.helpers)
                Examples.left_bracket Examples.right_paren).
  - by apply (LeftItem_checkItem_right_stop (H := Plain.helpers)
                Examples.left_bracket Examples.stop).
Defined.

(** ** Child slots *)

Lemma js_set_eq {A} (l : list (option A)) (i : nat) (x : option A) :
  default None (js_set l i x !! i) = x.
Proof.
  unfold js_set. case_decide as Hi.
  - by rewrite list_lookup_insert_eq.
  - rewrite lookup_app_r by lia.
    rewrite lookup_app_r by (rewrite length_replicate; lia).
    rewrite length_replicate.
    by replace (i - length l - (i - length l))%nat with 0%nat by lia.
Qed.

Lemma js_set_ne {A} (l : list (option A)) (i j : nat) (x : option A) :
  i ≠ j → default None (js_set l i x !! j) = default None (l !! j).
Proof.
  intros Hne. unfold js_set. case_decide as Hi.
  - by rewrite list_lookup_insert_ne.
  - destruct (decide (j < length l)%nat) as [Hj|Hj].
    + by rewrite lookup_app_l.
    + rewrite (lookup_ge_None_2 l j) by lia.
      rewrite lookup_app_r by lia.
      destruct (decide (j - length l < i - length l)%nat) as [Hgap|Hgap].
      * rewrite lookup_app_l by (rewrite length_replicate; lia).
        by rewrite lookup_replicate_2.
      * rewrite lookup_app_r by (rewrite length_replicate; lia).
        rewrite length_replicate.
        rewrite lookup_ge_None_2; [done|]. simpl. lia.
Qed.

Lemma childAt_setData_eq k attrs cs (p : Z) (x : option MmlNode) :
  0 ≤ p → childAt (setData (Elem k attrs cs) p x) (Z.to_nat p) = x.
Proof.
  intros Hp. unfold setData, childAt.
  rewrite (proj2 (Z.ltb_ge _ _)) by lia. apply js_set_eq.
Qed.

Lemma childAt_setData_ne k attrs cs (p : Z) (j : nat) (x : option MmlNode) :
  Z.of_nat j ≠ p →
  childAt (setData (Elem k attrs cs) p x) j = childAt (Elem k attrs cs) j.
Proof.
  intros Hne. unfold setData, childAt.
  destruct (p <? 0) eqn:Hp; [done|].
  apply Z.ltb_ge in Hp. apply js_set_ne. lia.
Qed.

Lemma setData_Elem k attrs cs (p : Z) (x : option MmlNode) :
  ∃ cs', setData (Elem k attrs cs) p x = Elem k attrs cs'.
Proof. unfold setData. destruct (p <? 0); eauto. Qed.

(** ** Subsup items *)

(** C10: for a subsup item whose 'position' is 1 and whose 'primes'
    property holds a queued primes node, [checkItem] on an incoming mml item
    writes the primes node into child slot 2 of the base node and the
    incoming subtree into slot 1, leaves the other slots and the type of the
    base as they are, and returns the single mml item of that one node. *)
Theorem SubsupItem_checkItem_prime_on_sub `{!Helpers}
    (self item : StackItem) (k : string) (attrs : PropertyList)
    (cs : list (option MmlNode)) (primes script : MmlNode) :
  Top self = Some (Elem k attrs cs) →
  itemProperty self "position" = Some (VNum 1) →
  itemProperty self "primes" = Some (VNode primes) →
  kind item = K_mml →
  Top item = Some script →
  ∃ (mml : StackItem) (top : MmlNode),
    SubsupItem.checkItem self item = Ok (CItem mml)
    ∧ kind mml = K_mml
    ∧ nodes mml = [top]
    ∧ isType top k = true
    ∧ childAt top 2 = Some primes
    ∧ childAt top 1 = Some script
    ∧ ∀ j, j ≠ 1%nat → j ≠ 2%nat → childAt top j = childAt (Elem k attrs cs) j.
Proof.
  intros Htop Hposition Hprimes Hmml Hscript.
  unfold SubsupItem.checkItem, isKind.
  rewrite Hmml, Hposition, Hprimes, Htop.
  cbn [bool_decide decide_rel orb truthy strictEqNum Z.eqb Pos.eqb negb
       defined mbind Result_bind asNode asNumber].
  rewrite Hscript.
  destruct (setData_Elem k attrs cs 2 (Some primes)) as [cs2 Hcs2].
  destruct (setData_Elem k attrs cs2 1 (Some script)) as [cs1 Hcs1].
  assert (Hslots : childAt (Elem k attrs cs1) 2 = Some primes
                   ∧ childAt (Elem k attrs cs1) 1 = Some script
                   ∧ ∀ j, j ≠ 1%nat → j ≠ 2%nat →
                          childAt (Elem k attrs cs1) j
                          = childAt (Elem k attrs cs) j).
  { rewrite <- Hcs1. repeat split.
    - rewrite (childAt_setData_ne _ _ _ 1 2) by lia.
      rewrite <- Hcs2. by apply (childAt_setData_eq _ _ _ 2).
    - by apply (childAt_setData_eq _ _ _ 1).
    - intros j Hj1 Hj2. rewrite childAt_setData_ne by lia.
      rewrite <- Hcs2. apply childAt_setData_ne. lia. }
  rewrite Hcs2, Hcs1.
  destruct (itemProperty self "movesupsub") as [moves|];
    eexists _, _; (split; [reflexivity|]);
    (split; [reflexivity|]); (split; [reflexivity|]);
    (split; [cbn; apply String.eqb_refl|]); exact Hslots.
Qed.

Lemma SubsupItem_checkItem_prime_on_sub_witness :
  ∃ (mml : StackItem) (top : MmlNode),
    SubsupItem.checkItem (H := Plain.helpers)
      (Examples.primed 1) (Examples.mml Examples.one) = Ok (CItem mml)
    ∧ kind mml = K_mml
    ∧ nodes mml = [top]
    ∧ isType top "msubsup" = true
    ∧ childAt top 2 = Some Examples.prime_glyph
    ∧ childAt top 1 = Some Examples.one
    ∧ ∀ j, j ≠ 1%nat → j ≠ 2%nat → childAt top j = childAt Examples.script_base j.
Proof.
  apply (SubsupItem_checkItem_prime_on_sub (H := Plain.helpers)
           (Examples.primed 1) (Examples.mml Examples.one)
           "msubsup" ∅ [Some Examples.a]); reflexivity.
Defined.





(** ** Prime items *)

(** C5: a prime item whose base node is not an msubsup builds a new msup
    node with the base as first child and the prime glyph as second child;
    when the base is an msubsup the prime glyph is written into the sup slot
    (slot 2) of that same node, whose other slots stay, so no superscript
    is nested; and a subsup item in superscript position that holds queued
    primes flags the primes node variantForm and merges it, in one row with
    the incoming superscript, into the sup slot of its base. *)
Theorem PrimeItem_checkItem_prime `{!Helpers} :
  (∀ (self item : StackItem) (base prime : MmlNode) (rest : list MmlNode),
     nodes self = base :: prime :: rest →
     isType base "msubsup" = false →
     PrimeItem.checkItem self item
     = Ok (CList [ENode (Elem "msup" ∅ [Some base; Some prime]);
                  EItem item]))
  ∧ (∀ (self item : StackItem) attrs cs (prime : MmlNode)
       (rest : list MmlNode),
       nodes self = Elem "msubsup" attrs cs :: prime :: rest →
       ∃ top0 : MmlNode,
         PrimeItem.checkItem self item
         = Ok (CList [ENode top0; EItem item])
         ∧ isType top0 "msubsup" = true
         ∧ getProperty top0 = getProperty (Elem "msubsup" attrs cs)
         ∧ childAt top0 2 = Some prime
         ∧ ∀ j, j ≠ 2%nat →
                childAt top0 j = childAt (Elem "msubsup" attrs cs) j)
  ∧ (∀ (self item : StackItem) k attrs cs pk pattrs pcs (script : MmlNode),
       Top self = Some (Elem k attrs cs) →
       itemProperty self "position" = Some (VNum 2) →
       itemProperty self "primes" = Some (VNode (Elem pk pattrs pcs)) →
       kind item = K_mml →
       Top item = Some script →
       ∃ (mml : StackItem) (top flagged : MmlNode),
         SubsupItem.checkItem self item = Ok (CItem mml)
         ∧ kind mml = K_mml
         ∧ nodes mml = [top]
         ∧ isType top k = true
         ∧ childAt top 2 = Some (Elem "mrow" ∅ [Some flagged; Some script])
         ∧ isType flagged pk = true
         ∧ getChildren flagged = pcs
         ∧ getProperty flagged "variantForm" = Some (VBool true)
         ∧ ∀ j, j ≠ 2%nat → childAt top j = childAt (Elem k attrs cs) j).
Proof.
  split; [|split].
  - intros self item base prime rest Hnodes Hbase.
    unfold PrimeItem.checkItem, TopN. rewrite Hnodes. simpl.
    by rewrite Hbase.
  - intros self item attrs cs prime rest Hnodes.
    unfold PrimeItem.checkItem, TopN. rewrite Hnodes. simpl.
    eexists. split; [reflexivity|]. split; [reflexivity|].
    split; [reflexivity|]. split.
    + apply js_set_eq.
    + intros j Hj. unfold childAt. simpl. by apply js_set_ne.
  - intros self item k attrs cs pk pattrs pcs script
      Htop Hposition Hprimes Hmml Hscript.
    destruct item as [ik [|first others] ip ie];
      cbn in Hmml, Hscript; [discriminate|].
    injection Hscript as ->. subst ik.
    unfold SubsupItem.checkItem, isKind.
    rewrite Hposition, Hprimes, Htop.
    cbn [bool_decide decide_rel orb truthy strictEqNum Z.eqb Pos.eqb negb
         defined mbind Result_bind asNode asNumber kind].
    cbn [setTop Top nodes head createNode setProperties app].
    set (flagged := Elem pk ({["variantForm" := VBool true]} ∪ pattrs) pcs).
    set (row := Elem "mrow" ∅ [Some flagged; Some script]).
    destruct (setData_Elem k attrs cs 2 (Some row)) as [cs2 Hcs2].
    assert (Hslots : childAt (Elem k attrs cs2) 2 = Some row
                     ∧ ∀ j, j ≠ 2%nat →
                            childAt (Elem k attrs cs2) j
                            = childAt (Elem k attrs cs) j).
    { rewrite <- Hcs2. split.
      - by apply (childAt_setData_eq _ _ _ 2).
      - intros j Hj. apply childAt_setData_ne. lia. }
    change (createNode "mrow" [Some flagged; Some script] ∅ None) with row.
    rewrite Hcs2. destruct Hslots as [Hsup Hothers].
    assert (Hflag : getProperty flagged "variantForm" = Some (VBool true)).
    { unfold flagged. simpl. rewrite lookup_union, lookup_singleton_eq.
      by destruct (pattrs !! "variantForm"). }
    destruct (itemProperty self "movesupsub") as [moves|];
      eexists _, _, flagged;
      (split; [reflexivity|]); (split; [reflexivity|]);
      (split; [reflexivity|]); (split; [cbn; apply String.eqb_refl|]);
      (split; [exact Hsup|]); (split; [cbn; apply String.eqb_refl|]);
      (split; [reflexivity|]); (split; [exact Hflag|]); exact Hothers.
Qed.

Lemma PrimeItem_checkItem_prime_witness :
  PrimeItem.checkItem Examples.a_prime Examples.stop
  = Ok (CList [ENode (Elem "msup" ∅ [Some Examples.a;
                                     Some Examples.prime_glyph]);
               EItem Examples.stop])
  ∧ (∃ top0 : MmlNode,
       PrimeItem.checkItem Examples.a_sub_1_prime Examples.stop
       = Ok (CList [ENode top0; EItem Examples.stop])
       ∧ isType top0 "msubsup" = true
       ∧ getProperty top0 = getProperty Examples.a_sub_1
       ∧ childAt top0 2 = Some Examples.prime_glyph
       ∧ ∀ j, j ≠ 2%nat → childAt top0 j = childAt Examples.a_sub_1 j)
  ∧ (∃ (mml : StackItem) (top flagged : MmlNode),
       SubsupItem.checkItem (H := Plain.helpers)
         (Examples.primed 2) (Examples.mml Examples.two) = Ok (CItem mml)
       ∧ kind mml = K_mml
       ∧ nodes mml = [top]
       ∧ isType top "msubsup" = true
       ∧ childAt top 2
         = Some (Elem "mrow" ∅ [Some flagged; Some Examples.two])
       ∧ isType flagged "mo" = true
       ∧ getChildren flagged = [Some (Text [8242%N])]
       ∧ getProperty flagged "variantForm" = Some (VBool true)
       ∧ ∀ j, j ≠ 2%nat → childAt top j = childAt Examples.script_base j).
Proof.
  pose proof (PrimeItem_checkItem_prime (H := Plain.helpers))
    as (Hmsup & Hmsubsup & Hsubsup).
  split; [|split].
  - apply (Hmsup Examples.a_prime Examples.stop
             Examples.a Examples.prime_glyph []); reflexivity.
  - apply (Hmsubsup Examples.a_sub_1_prime Examples.stop
             ∅ [Some Examples.a; Some Examples.one]
             Examples.prime_glyph []); reflexivity.
  - apply (Hsubsup (Examples.primed 2) (Examples.mml Examples.two)
             "msubsup" ∅ [Some Examples.a]
             "mo" ∅ [Some (Text [8242%N])]); reflexivity.
Defined.

(** ** Fn items *)

Lemma formEntry_spec (i : Z) :
  FnItem.formEntry i = true ↔ i = 2 ∨ i = 3 ∨ i = 5 ∨ i = 6.
Proof.
  unfold FnItem.formEntry.
  destruct (i <? 0) eqn:Hneg.
  { apply Z.ltb_lt in Hneg. split; [done | lia]. }
  apply Z.ltb_ge in Hneg.
  destruct (decide (i < 10)) as [Hsmall|Hlarge].
  - assert (Hcases : i = 0 ∨ i = 1 ∨ i = 2 ∨ i = 3 ∨ i = 4 ∨ i = 5
                     ∨ i = 6 ∨ i = 7 ∨ i = 8 ∨ i = 9) by lia.
    destruct Hcases as [->|[->|[->|[->|[->|[->|[->|[->|[->| ->]]]]]]]]];
      cbn; split; (done || lia || tauto).
  - rewrite lookup_ge_None_2 by (simpl; lia). split; [done | lia].
Qed.

(** C2, as stated, fails: when the incoming item is another fn item the
    operator is not left out but inserted; [\sin\cos] gives the function
    node, the apply-function operator and the second function item. *)
Lemma FnItem_checkItem_fn_inserted :
  Top Examples.sin_fn = Some Examples.sin
  ∧ isOpen Examples.cos_fn = false
  ∧ kind Examples.cos_fn = K_fn
  ∧ FnItem.checkItem (H := Plain.helpers) Examples.sin_fn Examples.cos_fn
    = Ok (CList [ENode Examples.sin; ENode FnItem.applyFunctionNode;
                 EItem Examples.cos_fn])
  ∧ FnItem.checkItem (H := Plain.helpers) Examples.sin_fn Examples.cos_fn
    ≠ Ok (CList [ENode Examples.sin; EItem Examples.cos_fn]).
Proof.
  repeat split; try reflexivity. vm_compute. discriminate.
Qed.

(** C2, amended: when a fn item with a non-empty payload receives a
    non-open incoming item, it inserts the invisible apply-function operator
    (an mo of TeX class NONE holding U+2061) between the function node and
    the incoming item when that item is another fn item, or is an mml item
    whose top node is not an mspace and whose core operator (the node
    itself, unwrapped when embellished) has no form or a form whose third
    component reads 0 or nothing in the table [0,0,1,1,0,1,1,0,0,0]; the
    function node and the incoming item are re-pushed with no operator
    when the incoming item is neither an fn nor an mml item or has no top
    node, when its top node is an mspace, and when the table reads 1, that
    is at the indices 2, 3, 5 and 6. *)
Theorem FnItem_checkItem_apply `{!Helpers} (self item : StackItem)
    (top : MmlNode) :
  Top self = Some top →
  isOpen item = false →
  let insert :=
    Ok (CList [ENode top;
               ENode (Elem "mo" {["texClass" := VClass NONE]}
                           [Some (Text [8289%N])]);
               EItem item]) in
  let keep := Ok (CList [ENode top; EItem item]) in
  (kind item = K_fn → FnItem.checkItem self item = insert)
  ∧ (kind item ≠ K_fn → kind item ≠ K_mml ∨ Top item = None →
     FnItem.checkItem self item = keep)
  ∧ (∀ mml : MmlNode,
       kind item = K_mml → Top item = Some mml →
       let core := if isEmbellished mml then getCoreMO mml else mml in
       (isType mml "mspace" = true → FnItem.checkItem self item = keep)
       ∧ (isType mml "mspace" = false →
          (∀ lspace rspace i,
             getForm core = Some (lspace, rspace, i) →
             FnItem.checkItem self item
             = if bool_decide (i = 2 ∨ i = 3 ∨ i = 5 ∨ i = 6)
               then keep else insert)
          ∧ (getForm core = None → FnItem.checkItem self item = insert))).
Proof.
  intros Htop Hopen insert keep.
  unfold FnItem.checkItem, isKind. rewrite Htop, Hopen.
  fold insert keep. split; [|split].
  - intros ->. by rewrite bool_decide_eq_true_2.
  - intros Hfn Hother. rewrite bool_decide_eq_false_2 by done. cbn [negb].
    destruct (Top item) as [mml|]; [|done].
    destruct Hother as [Hmml|?]; [|done].
    by rewrite bool_decide_eq_false_2.
  - intros mml Hmml Htopi. rewrite Hmml, Htopi.
    set (core := if isEmbellished mml then getCoreMO mml else mml).
    change (FnItem.applyFunctionNode)
      with (Elem "mo" {["texClass" := VClass NONE]} [Some (Text [8289%N])]).
    fold insert.
    rewrite bool_decide_eq_false_2 by done.
    rewrite bool_decide_eq_true_2 by done. cbn [negb].
    split; [by intros ->|].
    intros ->. split.
    + intros lspace rspace i ->.
      case_bool_decide as Hentry.
      * by rewrite (proj2 (formEntry_spec i) Hentry).
      * destruct (FnItem.formEntry i) eqn:Hread; [|done].
        by apply formEntry_spec in Hread.
    + by intros ->.
Qed.

Lemma FnItem_checkItem_apply_witness :
  FnItem.checkItem (H := Plain.helpers) Examples.sin_fn Examples.cos_fn
  = Ok (CList [ENode Examples.sin;
               ENode (Elem "mo" {["texClass" := VClass NONE]}
                           [Some (Text [8289%N])]);
               EItem Examples.cos_fn])
  ∧ FnItem.checkItem (H := Plain.helpers) Examples.sin_fn
      (Examples.mml Examples.plus)
    = Ok (CList [ENode Examples.sin; EItem (Examples.mml Examples.plus)])
  ∧ FnItem.checkItem (H := Plain.helpers) Examples.sin_fn
      (Examples.mml Examples.x)
    = Ok (CList [ENode Examples.sin;
                 ENode (Elem "mo" {["texClass" := VClass NONE]}
                             [Some (Text [8289%N])]);
                 EItem (Examples.mml Examples.x)]).
Proof.
  split; [|split].
  - by apply (FnItem_checkItem_apply (H := Plain.helpers)
                Examples.sin_fn Examples.cos_fn Examples.sin).
  - destruct (FnItem_checkItem_apply (H := Plain.helpers)
                Examples.sin_fn (Examples.mml Examples.plus) Examples.sin
                eq_refl eq_refl) as (_ & _ & Hmml).
    destruct (Hmml Examples.plus eq_refl eq_refl) as [_ Hform].
    destruct (Hform eq_refl) as [Hsome _].
    exact (Hsome 4 4 2 eq_refl).
  - destruct (FnItem_checkItem_apply (H := Plain.helpers)
                Examples.sin_fn (Examples.mml Examples.x) Examples.sin
                eq_refl eq_refl) as (_ & _ & Hmml).
    destruct (Hmml Examples.x eq_refl eq_refl) as [_ Hform].
    destruct (Hform eq_refl) as [_ Hnone].
    exact (Hnone eq_refl).
Defined.

(** ** Not items *)

Lemma token_shape (mml : MmlNode) (c : N) :
  getText mml = [c] →
  length (getChildren mml) = 1%nat →
  ∃ k attrs, mml = Elem k attrs [Some (Text [c])].
Proof.
  destruct mml as [k attrs cs|s]; [|discriminate].
  cbn [getText getChildren].
  destruct cs as [|child [|? ?]]; try discriminate.
  intros Htext _. exists k, attrs.
  destruct child as [[|s]|]; try discriminate.
  simpl in Htext. rewrite app_nil_r in Htext. by subst s.
Qed.

(** C7: a not item that receives an mml item whose top node is an mo, mi or
    mtext token with exactly one child, a text of one character and no
    movesupsub property hands the item back, still an mml item, with the
    token's text replaced by the remapped glyph when the character is in
    the remap table, and with the combining slash U+0338 appended to the
    token when it is not; for an mml item of any other shape (a text that
    is not one character, movesupsub set, more or fewer children, not a
    token), and for an incoming item that is no mml item and is not left
    to be pushed as an open or a left item is, it pushes, before the
    incoming item, a TeXAtom of TeX class REL around a width-0 mpadded
    around an mtext holding U+29F8. *)
Theorem NotItem_checkItem_negate (remap : CharacterMap)
    (self item : StackItem) :
  let isToken (mml : MmlNode) :=
    isType mml "mo" || isType mml "mi" || isType mml "mtext" in
  let overlay :=
    Elem "TeXAtom" {["texClass" := VClass REL]}
      [Some (Elem "mpadded" {["width" := VNum 0]}
               [Some (Elem "mtext" ∅ [Some (Text [10744%N])])])] in
  (∀ (mml : MmlNode) (c : N),
     kind item = K_mml →
     Top item = Some mml →
     isToken mml = true →
     getText mml = [c] →
     truthy (getProperty mml "movesupsub") = false →
     length (getChildren mml) = 1%nat →
     (∀ char, remap !! [c] = Some char →
        ∃ mml', NotItem.checkItem remap self item
                = Ok (CItem (setTop item mml'))
          ∧ kind (setTop item mml') = K_mml
          ∧ Top (setTop item mml') = Some mml'
          ∧ getText mml' = char
          ∧ getChildren mml' = [Some (Text char)]
          ∧ getProperty mml' = getProperty mml
          ∧ ∀ k, isType mml' k = isType mml k)
     ∧ (remap !! [c] = None →
        ∃ mml', NotItem.checkItem remap self item
                = Ok (CItem (setTop item mml'))
          ∧ kind (setTop item mml') = K_mml
          ∧ Top (setTop item mml') = Some mml'
          ∧ getChildren mml' = getChildren mml ++ [Some (Text [824%N])]
          ∧ getProperty mml' = getProperty mml
          ∧ ∀ k, isType mml' k = isType mml k))
  ∧ (∀ mml : MmlNode,
       kind item = K_mml →
       Top item = Some mml →
       isToken mml = false
       ∨ length (getText mml) ≠ 1%nat
       ∨ truthy (getProperty mml "movesupsub") = true
       ∨ length (getChildren mml) ≠ 1%nat →
       NotItem.checkItem remap self item
       = Ok (CList [ENode overlay; EItem item]))
  ∧ (kind item ≠ K_mml → kind item ≠ K_open → kind item ≠ K_left →
     NotItem.checkItem remap self item
     = Ok (CList [ENode overlay; EItem item])).
Proof.
  intros isToken overlay.
  unfold NotItem.checkItem, isKind.
  change NotItem.overlay with overlay.
  split; [|split].
  - intros mml c Hmml Htop Htoken Htext Hmoves Hone.
    rewrite Hmml, Htop.
    cbn [bool_decide decide_rel Kind_eq_dec orb defined mbind Result_bind].
    cbn [orb defined mbind Result_bind]. cbv zeta. fold (isToken mml).
    rewrite Htoken, Htext, Hmoves, Hone.
    cbn [length bool_decide decide_rel andb negb].
    destruct (token_shape mml c Htext Hone) as (k & attrs & ->).
    assert (Hkind : kind (setTop item (Elem k attrs [Some (Text [c])]))
                    = K_mml) by done.
    split.
    + intros char ->. eexists. split; [reflexivity|].
      repeat split; try done.
      * unfold setTop, Top. cbn. by destruct (nodes item).
      * cbn. apply app_nil_r.
    + intros ->. eexists. split; [reflexivity|].
      repeat split; try done.
      unfold setTop, Top. cbn. by destruct (nodes item).
  - intros mml Hmml Htop Hshape.
    rewrite Hmml, Htop.
    cbn [orb defined mbind Result_bind]. cbv zeta. fold (isToken mml).
    destruct (isToken mml); [|done].
    destruct Hshape as [?|[Htext|[Hmoves|Hchildren]]]; [done|..].
    + by rewrite (bool_decide_eq_false_2 _ Htext).
    + rewrite Hmoves. cbn [negb]. by rewrite andb_false_r.
    + rewrite (bool_decide_eq_false_2 _ Hchildren). by rewrite andb_false_r.
  - intros Hmml Hopen Hleft. by rewrite !bool_decide_eq_false_2.
Qed.

Lemma NotItem_checkItem_negate_witness :
  (∃ mml', NotItem.checkItem Examples.not_remap Examples.not
             (Examples.mml Examples.equals)
           = Ok (CItem (setTop (Examples.mml Examples.equals) mml'))
     ∧ kind (setTop (Examples.mml Examples.equals) mml') = K_mml
     ∧ Top (setTop (Examples.mml Examples.equals) mml') = Some mml'
     ∧ getText mml' = [8800%N]
     ∧ getChildren mml' = [Some (Text [8800%N])]
     ∧ getProperty mml' = getProperty Examples.equals
     ∧ ∀ k, isType mml' k = isType Examples.equals k)
  ∧ (∃ mml', NotItem.checkItem Examples.not_remap Examples.not
               (Examples.mml Examples.x)
             = Ok (CItem (setTop (Examples.mml Examples.x) mml'))
       ∧ kind (setTop (Examples.mml Examples.x) mml') = K_mml
       ∧ Top (setTop (Examples.mml Examples.x) mml') = Some mml'
       ∧ getChildren mml' = [Some (Text [120%N]); Some (Text [824%N])]
       ∧ getProperty mml' = getProperty Examples.x
       ∧ ∀ k, isType mml' k = isType Examples.x k)
  ∧ NotItem.checkItem Examples.not_remap Examples.not
      (Examples.mml Examples.sin)
    = Ok (CList
            [ENode (Elem "TeXAtom" {["texClass" := VClass REL]}
                      [Some (Elem "mpadded" {["width" := VNum 0]}
                               [Some (Elem "mtext" ∅
                                        [Some (Text [10744%N])])])]);
             EItem (Examples.mml Examples.sin)]).
Proof.
  split; [|split].
  - destruct (NotItem_checkItem_negate Examples.not_remap Examples.not
                (Examples.mml Examples.equals)) as (Htoken & _ & _).
    destruct (Htoken Examples.equals 61%N eq_refl eq_refl eq_refl eq_refl
                eq_refl eq_refl) as [Hhit _].
    exact (Hhit [8800%N] eq_refl).
  - destruct (NotItem_checkItem_negate Examples.not_remap Examples.not
                (Examples.mml Examples.x)) as (Htoken & _ & _).
    destruct (Htoken Examples.x 120%N eq_refl eq_refl eq_refl eq_refl
                eq_refl eq_refl) as [_ Hmiss].
    exact (Hmiss eq_refl).
  - destruct (NotItem_checkItem_negate Examples.not_remap Examples.not
                (Examples.mml Examples.sin)) as (_ & Hother & _).
    apply (Hother Examples.sin eq_refl eq_refl).
    right. left. vm_compute. discriminate.
Defined.

(** * Further properties of the items *)

(** ** Splitting and joining *)

Lemma append_assoc (a b c : string) : (a +:+ b) +:+ c = a +:+ (b +:+ c).
Proof.
  induction a as [|x a IH]; [done|].
  change (String x ((a +:+ b) +:+ c) = String x (a +:+ (b +:+ c))).
  by rewrite IH.
Qed.

Lemma join_cons (piece : string) (pieces : list string) :
  pieces ≠ [] → join (piece :: pieces) = piece +:+ " " +:+ join pieces.
Proof. by destruct pieces. Qed.

Lemma join_split (s : string) : join (split s) = s.
Proof.
  induction s as [|c rest IH]; [done|].
  cbn [split]. destruct (Ascii.eqb c " ") eqn:Hc.
  - apply Ascii.eqb_eq in Hc as ->.
    rewrite join_cons by apply split_nonempty. by rewrite IH.
  - pose proof (split_nonempty rest) as Hne.
    destruct (split rest) as [|piece pieces]; [done|].
    destruct pieces as [|next pieces].
    + simpl in *. by rewrite IH.
    + rewrite join_cons by done. rewrite join_cons in IH by done.
      change (String c (piece +:+ " " +:+ join (next :: pieces))
              = String c rest).
      by rewrite IH.
Qed.

Lemma join_snoc (pieces : list string) (piece : string) :
  pieces ≠ [] → join (pieces ++ [piece]) = join pieces +:+ " " +:+ piece.
Proof.
  induction pieces as [|first pieces IH]; [done|]. intros _.
  destruct pieces as [|next pieces]; [done|].
  change ((first :: next :: pieces) ++ [piece])
    with (first :: (next :: pieces) ++ [piece]).
  rewrite join_cons by done. rewrite IH by done.
  rewrite (join_cons first) by done. by rewrite !append_assoc.
Qed.

Lemma split_noSpace (s : string) : noSpace s = true → split s = [s].
Proof.
  induction s as [|c rest IH]; [done|].
  cbn [noSpace split]. intros [Hc Hrest]%andb_true_iff.
  apply negb_true_iff in Hc. rewrite Hc. by rewrite IH.
Qed.

Lemma split_append_space (piece rest : string) :
  noSpace piece = true →
  split (piece +:+ " " +:+ rest) = piece :: split rest.
Proof.
  induction piece as [|c piece IH]; [done|].
  cbn [noSpace]. intros [Hc Hpiece]%andb_true_iff.
  apply negb_true_iff in Hc.
  change (String c piece +:+ " " +:+ rest)
    with (String c (piece +:+ " " +:+ rest)).
  cbn [split]. by rewrite Hc, IH.
Qed.

Lemma split_pieces (s : string) : Forall (λ piece, noSpace piece = true) (split s).
Proof.
  induction s as [|c rest IH]; [by repeat constructor|].
  cbn [split]. destruct (Ascii.eqb c " ") eqn:Hc.
  - by constructor.
  - destruct (split rest) as [|piece pieces].
    { constructor; [|done]. simpl. by rewrite Hc. }
    inversion IH as [|? ? Hpiece Hpieces]; subst.
    constructor; [|done]. simpl. by rewrite Hc, Hpiece.
Qed.

Lemma split_join (pieces : list string) :
  pieces ≠ [] →
  Forall (λ piece, noSpace piece = true) pieces →
  split (join pieces) = pieces.
Proof.
  induction pieces as [|piece pieces IH]; [done|]. intros _ Hall.
  inversion Hall as [|? ? Hpiece Hpieces]; subst.
  destruct pieces as [|next pieces].
  - by apply split_noSpace.
  - rewrite join_cons by done. rewrite split_append_space by done.
    by rewrite IH.
Qed.

Lemma pop_snoc {A} (l : list A) :
  l ≠ [] → ∃ x, l = pop l ++ [x] ∧ length (pop l) = (length l - 1)%nat.
Proof.
  intros Hne. destruct (exists_last Hne) as (front & x & ->).
  exists x. unfold pop. rewrite removelast_last. split; [done|].
  rewrite length_app. simpl. lia.
Qed.

Lemma Forall_pop {A} (P : A → Prop) (l : list A) : Forall P l → Forall P (pop l).
Proof.
  intros Hall. destruct (decide (l = [])) as [->|Hne]; [done|].
  destruct (pop_snoc l Hne) as (x & Hl & _). rewrite Hl in Hall.
  by apply Forall_app in Hall as [? _].
Qed.

Lemma noSpace_append (a b : string) :
  noSpace a = true → noSpace b = true → noSpace (a +:+ b) = true.
Proof.
  induction a as [|c a IH]; [done|].
  cbn [noSpace]. intros [Hc Ha]%andb_true_iff Hb.
  change (String c a +:+ b) with (String c (a +:+ b)).
  cbn [noSpace]. by rewrite Hc, IH.
Qed.

(** ** Array items: the lines of a table *)

Lemma checkRowlines_fields (self : ArrayItem.t) :
  (truthy (ArrayItem.arraydef self !! "rowlines") = true →
   is_Some (asString (ArrayItem.arraydef self !! "rowlines"))) →
  ∃ self', ArrayItem.checkRowlines self = Ok self'
    ∧ linesOnly self self'
    ∧ ArrayItem.arraydef self' !! "rowspacing"
      = ArrayItem.arraydef self !! "rowspacing".
Proof.
  intros Htyped. unfold ArrayItem.checkRowlines, linesOnly.
  destruct (truthy _) eqn:Hlines; [|exists self; by eauto 12].
  destruct (Htyped eq_refl) as [s ->]. cbn [defined mbind Result_bind].
  case_bool_decide; [|destruct (_ <? _)];
    (eexists; split; [reflexivity|]); cbn;
    rewrite ?lookup_insert_ne by done;
    (split; [|done]); repeat (split; [done|]);
    (split; [by eauto|]); intros key Hkey _;
    by rewrite ?lookup_insert_ne.
Qed.

Lemma checkRowspacing_fields `{!Helpers} (self : ArrayItem.t) :
  (truthy (itemProperty (ArrayItem.base self) "rowspacing") = true →
   is_Some (asString (ArrayItem.arraydef self !! "rowspacing"))) →
  ∃ self', ArrayItem.checkRowspacing self = Ok self'
    ∧ linesOnly self self'
    ∧ ArrayItem.frame self' = ArrayItem.frame self
    ∧ ArrayItem.arraydef self' !! "rowlines"
      = ArrayItem.arraydef self !! "rowlines".
Proof.
  intros Htyped. unfold ArrayItem.checkRowspacing, linesOnly.
  destruct (truthy _) eqn:Hspacing; [|exists self; by eauto 12].
  destruct (Htyped eq_refl) as [s ->]. cbn [defined mbind Result_bind].
  eexists; split; [reflexivity|]; cbn.
  rewrite ?lookup_insert_ne by done.
  split; [|done]. repeat (split; [done|]).
  split; [by eauto|]. intros key _ Hkey. by rewrite lookup_insert_ne.
Qed.

Lemma linesOnly_trans (a b c : ArrayItem.t) :
  linesOnly a b → ArrayItem.frame c = ArrayItem.frame b →
  linesOnly b c → linesOnly a c.
Proof.
  unfold linesOnly.
  intros (-> & -> & -> & -> & -> & -> & Hframe & Hkeys) Hsame
         (-> & -> & -> & -> & -> & -> & _ & Hkeys').
  repeat (split; [done|]). split; [by rewrite Hsame|].
  intros key H1 H2. by rewrite Hkeys', Hkeys.
Qed.

(** X1: [checkLines] raises a TypeError exactly when the rowlines entry of
    [arraydef] is truthy but no string, or the 'rowspacing' property is set
    while the rowspacing entry of [arraydef] is no string; in every other
    case it returns, and leaves the item, the rows, the cells and every
    other entry of [arraydef] as they are, the frame gaining at most a
    'bottom' side. *)
Theorem checkLines_runs `{!Helpers} (self : ArrayItem.t) :
  let rowlines := ArrayItem.arraydef self !! "rowlines" in
  let rowspacing := itemProperty (ArrayItem.base self) "rowspacing" in
  let spacing := ArrayItem.arraydef self !! "rowspacing" in
  if (truthy rowlines && negb (bool_decide (is_Some (asString rowlines))))
     || (truthy rowspacing && negb (bool_decide (is_Some (asString spacing))))
  then ArrayItem.checkLines self = Throw TypeError
  else ∃ self', ArrayItem.checkLines self = Ok self' ∧ linesOnly self self'.
Proof.
  intros rowlines rowspacing spacing.
  destruct (truthy rowlines && _) eqn:Hlines.
  - apply andb_true_iff in Hlines as [Htruthy Hstring].
    apply negb_true_iff, bool_decide_eq_false in Hstring.
    unfold ArrayItem.checkLines, ArrayItem.checkRowlines.
    fold rowlines. rewrite Htruthy.
    destruct (asString rowlines); [|done]. by destruct Hstring.
  - assert (Htyped : truthy rowlines = true → is_Some (asString rowlines)).
    { intros Htruthy. rewrite Htruthy in Hlines.
      by apply negb_false_iff, bool_decide_eq_true in Hlines. }
    destruct (checkRowlines_fields self Htyped)
      as (mid & Hmid & Hkeep & Hspacing).
    unfold ArrayItem.checkLines. rewrite Hmid.
    cbn [mbind Result_bind orb].
    assert (Hbase : ArrayItem.base mid = ArrayItem.base self)
      by apply Hkeep.
    destruct (truthy rowspacing && _) eqn:Hrows.
    + apply andb_true_iff in Hrows as [Htruthy Hstring].
      apply negb_true_iff, bool_decide_eq_false in Hstring.
      unfold ArrayItem.checkRowspacing. rewrite Hbase, Hspacing.
      fold rowspacing spacing. rewrite Htruthy.
      destruct (asString spacing); [|done]. by destruct Hstring.
    + destruct (checkRowspacing_fields mid)
        as (self' & Hrun & Hkeep' & Hframe & _).
      { rewrite Hbase, Hspacing. fold rowspacing spacing.
        intros Htruthy. rewrite Htruthy in Hrows.
        by apply negb_false_iff, bool_decide_eq_true in Hrows. }
      exists self'. split; [done|]. by eapply linesOnly_trans.
Qed.

(** X2: when the rowlines pattern has as many entries as the table has
    rows, [checkLines] takes the last entry for the line under the table:
    'bottom' is added to the frame and the pattern is left without its last
    entry.  For a table of one row the pattern, which is that one entry,
    becomes the empty string; for more rows the old pattern is the new one,
    a space and the entry taken, and the new pattern has one entry for
    every row but the last. *)
Theorem checkLines_bottom `{!Helpers} (self : ArrayItem.t) (s : string) :
  ArrayItem.arraydef self !! "rowlines" = Some (VStr s) →
  s ≠ "" →
  length (split s) = length (ArrayItem.table self) →
  (truthy (itemProperty (ArrayItem.base self) "rowspacing") = true →
   is_Some (asString (ArrayItem.arraydef self !! "rowspacing"))) →
  ∃ self' s' entry,
    ArrayItem.checkLines self = Ok self'
    ∧ ArrayItem.frame self' = ArrayItem.frame self ++ ["bottom"]
    ∧ ArrayItem.table self' = ArrayItem.table self
    ∧ ArrayItem.arraydef self' !! "rowlines" = Some (VStr s')
    ∧ split s = pop (split s) ++ [entry]
    ∧ s' = join (pop (split s))
    ∧ if bool_decide (length (ArrayItem.table self) = 1%nat)
      then s' = "" ∧ s = entry
      else s = s' +:+ " " +:+ entry
           ∧ split s' = pop (split s)
           ∧ length (split s') = (length (ArrayItem.table self) - 1)%nat.
Proof.
  intros Hlines Hs Hlen Hready.
  destruct (pop_snoc (split s) (split_nonempty s)) as (entry & Hsplit & Hpop).
  unfold ArrayItem.checkLines, ArrayItem.checkRowlines.
  rewrite Hlines, (truthy_VStr s Hs). cbn [asString defined mbind Result_bind].
  rewrite bool_decide_eq_true_2 by done. cbn [mbind Result_bind].
  destruct (checkRowspacing_fields
              (ArrayItem.Mk (ArrayItem.base self) (ArrayItem.table self)
                 (ArrayItem.row self) (ArrayItem.frame self ++ ["bottom"])
                 (ArrayItem.hfill self) (ArrayItem.copyEnv self)
                 (<["rowlines" := VStr (join (pop (split s)))]>
                    (ArrayItem.arraydef self))
                 (ArrayItem.dashed self)))
    as (self' & Hrun & Hkeep & Hframe & Hrowlines).
  { cbn [ArrayItem.base ArrayItem.arraydef]. by rewrite lookup_insert_ne. }
  exists self', (join (pop (split s))), entry.
  rewrite Hrun, Hframe, Hrowlines.
  destruct Hkeep as (_ & -> & _).
  cbn [ArrayItem.frame ArrayItem.table ArrayItem.arraydef].
  rewrite lookup_insert_eq. repeat (split; [done|]).
  case_bool_decide as Hrows.
  - assert (Hnil : pop (split s) = []).
    { destruct (pop (split s)); [done|]. simpl in Hpop. lia. }
    rewrite Hnil. split; [done|].
    rewrite <- (join_split s) at 1. by rewrite Hsplit, Hnil.
  - assert (Hne : pop (split s) ≠ []).
    { intros Hnil. rewrite Hnil in Hpop. simpl in Hpop.
      pose proof (split_nonempty s). destruct (split s); simpl in *; [done|].
      lia. }
    assert (Hback : split (join (pop (split s))) = pop (split s)).
    { apply split_join; [done|]. apply Forall_pop, split_pieces. }
    split; [|split; [done|]].
    + rewrite <- join_snoc by done. rewrite <- Hsplit. by rewrite join_split.
    + rewrite Hback. lia.
Qed.

(** X3: with the 'rowspacing' property set, [checkLines] keeps the entries
    of the rowspacing pattern and adds the property's value, in em, once
    for every row that has no entry yet; a pattern with an entry for every
    row stays as it is. *)
Theorem checkLines_rowspacing `{!Helpers} (self : ArrayItem.t)
    (spacing : string) :
  let rowspacing := itemProperty (ArrayItem.base self) "rowspacing" in
  truthy rowspacing = true →
  ArrayItem.arraydef self !! "rowspacing" = Some (VStr spacing) →
  (truthy (ArrayItem.arraydef self !! "rowlines") = true →
   is_Some (asString (ArrayItem.arraydef self !! "rowlines"))) →
  noSpace (toStr rowspacing) = true →
  ∃ self' spacing',
    ArrayItem.checkLines self = Ok self'
    ∧ ArrayItem.table self' = ArrayItem.table self
    ∧ ArrayItem.arraydef self' !! "rowspacing" = Some (VStr spacing')
    ∧ split spacing'
      = split spacing
        ++ replicate (length (ArrayItem.table self) - length (split spacing))
                     (toStr rowspacing +:+ "em")
    ∧ length (split spacing')
      = (length (split spacing) `max` length (ArrayItem.table self))%nat
    ∧ ((length (ArrayItem.table self) ≤ length (split spacing))%nat →
       spacing' = spacing).
Proof.
  intros rowspacing Htruthy Hspacing Htyped Hclean.
  destruct (checkRowlines_fields self Htyped)
    as (mid & Hmid & Hkeep & Hsame).
  unfold ArrayItem.checkLines. rewrite Hmid. cbn [mbind Result_bind].
  destruct Hkeep as (Hbase & Htable & _).
  unfold ArrayItem.checkRowspacing.
  rewrite Hbase, Hsame, Hspacing, Htable. fold rowspacing.
  rewrite Htruthy. cbn [asString defined mbind Result_bind].
  set (rows := split spacing
               ++ replicate (length (ArrayItem.table self)
                             - length (split spacing))
                            (toStr rowspacing +:+ "em")).
  eexists _, (join rows). split; [reflexivity|].
  cbn [ArrayItem.table ArrayItem.arraydef].
  rewrite lookup_insert_eq.
  assert (Hrows : split (join rows) = rows).
  { apply split_join.
    - unfold rows. pose proof (split_nonempty spacing).
      by destruct (split spacing).
    - apply Forall_app. split; [apply split_pieces|].
      apply Forall_replicate. by apply noSpace_append. }
  repeat (split; [done|]). rewrite Hrows. split.
  - unfold rows. rewrite length_app, length_replicate. lia.
  - intros Hfull. unfold rows.
    replace (length (ArrayItem.table self) - length (split spacing))%nat
      with 0%nat by lia.
    simpl. rewrite app_nil_r. apply join_split.
Qed.

(** ** Array items: cells and rows *)

(** X4: [EndEntry] closes the cell: the payload becomes the children of one
    new mtd at the end of the row, the payload and the fill marks are
    emptied, the table is untouched; the cell is aligned by the fill marks:
    right when the first mark is at position 0, left when the last mark is
    at the end of the payload, center when both hold, and not at all
    otherwise or without marks. *)
Theorem EndEntry_cell (self : ArrayItem.t) :
  ∃ mtd : MmlNode,
    ArrayItem.row (ArrayItem.EndEntry self) = ArrayItem.row self ++ [mtd]
    ∧ isType mtd "mtd" = true
    ∧ getChildren mtd = Some <$> nodes (ArrayItem.base self)
    ∧ nodes (ArrayItem.base (ArrayItem.EndEntry self)) = []
    ∧ ArrayItem.hfill (ArrayItem.EndEntry self) = []
    ∧ ArrayItem.table (ArrayItem.EndEntry self) = ArrayItem.table self
    ∧ getAttribute mtd "columnalign"
      = match ArrayItem.hfill self with
        | [] => None
        | first :: _ =>
            match bool_decide (first = 0),
                  bool_decide (last (ArrayItem.hfill self)
                               = Some (Size (ArrayItem.base self))) with
            | true, true => Some (VStr "center")
            | true, false => Some (VStr "right")
            | false, true => Some (VStr "left")
            | false, false => None
            end
        end.
Proof.
  unfold ArrayItem.EndEntry.
  assert (Hmtd : createNode "mtd" (Some <$> nodes (ArrayItem.base self)) ∅ None
                 = Elem "mtd" ∅ (Some <$> nodes (ArrayItem.base self))).
  { unfold createNode. by rewrite app_nil_r. }
  rewrite Hmtd. eexists. split; [reflexivity|].
  destruct (ArrayItem.hfill self) as [|first marks] eqn:Hfill.
  { cbn. by repeat split. }
  destruct (first =? 0) eqn:Hfirst.
  - apply Z.eqb_eq in Hfirst as ->.
    rewrite (bool_decide_eq_true_2 (0 = 0)) by done.
    case_bool_decide; cbn;
      repeat (split; [done|]); by rewrite ?lookup_insert_eq.
  - apply Z.eqb_neq in Hfirst. rewrite (bool_decide_eq_false_2 _ Hfirst).
    case_bool_decide; cbn;
      repeat (split; [done|]); by rewrite ?lookup_insert_eq.
Qed.

(** X5: [EndRow] closes the row: its cells become the children of one new
    row node at the end of the table and the row is emptied.  The node is
    an mtr with the cells in order, except for a numbered item holding
    exactly three cells, which gives an mlabeledtr with the last cell, the
    equation number, moved to the front. *)
Theorem EndRow_row (self : ArrayItem.t) :
  ∃ node : MmlNode,
    ArrayItem.table (ArrayItem.EndRow self) = ArrayItem.table self ++ [node]
    ∧ ArrayItem.row (ArrayItem.EndRow self) = []
    ∧ ArrayItem.base (ArrayItem.EndRow self) = ArrayItem.base self
    ∧ length (getChildren node) = length (ArrayItem.row self)
    ∧ match ArrayItem.row self with
      | [c1; c2; c3] =>
          if truthy (itemProperty (ArrayItem.base self) "isNumbered")
          then node = Elem "mlabeledtr" ∅ [Some c3; Some c1; Some c2]
          else node = Elem "mtr" ∅ [Some c1; Some c2; Some c3]
      | cells => node = Elem "mtr" ∅ (Some <$> cells)
      end.
Proof.
  unfold ArrayItem.EndRow, createNode.
  assert (Hmtr : ∀ cells : list MmlNode,
             length (getChildren (Elem "mtr" ∅ ((Some <$> cells) ++ [])))
             = length cells).
  { intros cells. cbn. by rewrite app_nil_r, length_fmap. }
  destruct (truthy _) eqn:Hnumbered; cbn [andb].
  - case_bool_decide as Hthree.
    + destruct (ArrayItem.row self) as [|c1 [|c2 [|c3 [|c4 cells]]]];
        try (by simpl in Hthree).
      cbn. eexists. by split; [reflexivity|].
    + eexists. split; [reflexivity|]. repeat (split; [done|]).
      try (split; [apply Hmtr|]). rewrite app_nil_r.
      by destruct (ArrayItem.row self) as [|c1 [|c2 [|c3 [|c4 cells]]]].
  - eexists. split; [reflexivity|]. repeat (split; [done|]).
    try (split; [apply Hmtr|]). rewrite app_nil_r.
    by destruct (ArrayItem.row self) as [|c1 [|c2 [|c3 [|c4 cells]]]].
Qed.

Lemma checkRowlines_typed (self self' : ArrayItem.t) :
  ArrayItem.checkRowlines self = Ok self' →
  (truthy (ArrayItem.arraydef self !! "rowlines") = true →
   is_Some (asString (ArrayItem.arraydef self !! "rowlines"))) →
  truthy (ArrayItem.arraydef self' !! "rowlines") = true →
  is_Some (asString (ArrayItem.arraydef self' !! "rowlines")).
Proof.
  unfold ArrayItem.checkRowlines. intros Hrun Htyped.
  destruct (truthy _) eqn:Hlines; [|by injection Hrun as <-; rewrite Hlines].
  destruct (Htyped eq_refl) as [s Hs]. rewrite Hs in Hrun.
  cbn [defined mbind Result_bind] in Hrun.
  case_bool_decide; [|destruct (_ <? _)]; injection Hrun as <-;
    cbn [ArrayItem.arraydef]; rewrite ?lookup_insert_eq; by eauto.
Qed.

Lemma checkLines_fields `{!Helpers} (self : ArrayItem.t) :
  (truthy (ArrayItem.arraydef self !! "rowlines") = true →
   is_Some (asString (ArrayItem.arraydef self !! "rowlines"))) →
  (truthy (itemProperty (ArrayItem.base self) "rowspacing") = true →
   is_Some (asString (ArrayItem.arraydef self !! "rowspacing"))) →
  ∃ self', ArrayItem.checkLines self = Ok self'
    ∧ linesOnly self self'
    ∧ (truthy (ArrayItem.arraydef self' !! "rowlines") = true →
       is_Some (asString (ArrayItem.arraydef self' !! "rowlines"))).
Proof.
  intros Hlines Hspacing.
  destruct (checkRowlines_fields self Hlines) as (mid & Hmid & Hkeep & Hsame).
  pose proof (checkRowlines_typed self mid Hmid Hlines) as Htyped.
  assert (Hbase : ArrayItem.base mid = ArrayItem.base self) by apply Hkeep.
  destruct (checkRowspacing_fields mid)
    as (self' & Hrun & Hkeep' & Hframe & Hrowlines).
  { by rewrite Hbase, Hsame. }
  exists self'. unfold ArrayItem.checkLines. rewrite Hmid.
  split; [done|]. split; [by eapply linesOnly_trans|].
  by rewrite Hrowlines.
Qed.

Lemma getChildren_setAttribute (node : MmlNode) (name : string) (v : Value) :
  getChildren (setAttribute node name v) = getChildren node
  ∧ ∀ k, isType (setAttribute node name v) k = isType node k.
Proof. by destruct node. Qed.

Lemma EndEntry_fields (self : ArrayItem.t) :
  ∃ mtd : MmlNode,
    ArrayItem.EndEntry self
    = ArrayItem.Mk (Clear (ArrayItem.base self)) (ArrayItem.table self)
        (ArrayItem.row self ++ [mtd]) (ArrayItem.frame self) []
        (ArrayItem.copyEnv self) (ArrayItem.arraydef self)
        (ArrayItem.dashed self)
    ∧ isType mtd "mtd" = true
    ∧ getChildren mtd = Some <$> nodes (ArrayItem.base self)
    ∧ (ArrayItem.hfill self = [] →
       mtd = Elem "mtd" ∅ (Some <$> nodes (ArrayItem.base self))).
Proof.
  unfold ArrayItem.EndEntry. eexists. split; [reflexivity|].
  assert (Hmtd : createNode "mtd" (Some <$> nodes (ArrayItem.base self)) ∅ None
                 = Elem "mtd" ∅ (Some <$> nodes (ArrayItem.base self))).
  { unfold createNode. by rewrite app_nil_r. }
  rewrite Hmtd.
  destruct (ArrayItem.hfill self) as [|first marks]; [done|].
  split; [|split; [|done]].
  - destruct (first =? 0); case_bool_decide;
      by rewrite ?(proj2 (getChildren_setAttribute _ _ _)).
  - destruct (first =? 0); case_bool_decide;
      by rewrite ?(proj1 (getChildren_setAttribute _ _ _)).
Qed.

Lemma EndRow_EndEntry (self : ArrayItem.t) :
  ∃ node cell : MmlNode,
    ArrayItem.EndRow (ArrayItem.EndEntry self)
    = ArrayItem.Mk (Clear (ArrayItem.base self))
        (ArrayItem.table self ++ [node]) [] (ArrayItem.frame self) []
        (ArrayItem.copyEnv self) (ArrayItem.arraydef self)
        (ArrayItem.dashed self)
    ∧ length (getChildren node) = S (length (ArrayItem.row self))
    ∧ Some cell ∈ getChildren node
    ∧ isType cell "mtd" = true
    ∧ getChildren cell = Some <$> nodes (ArrayItem.base self)
    ∧ (ArrayItem.hfill self = [] →
       truthy (itemProperty (ArrayItem.base self) "isNumbered") = false →
       node = Elem "mtr" ∅
                (Some <$> (ArrayItem.row self
                           ++ [Elem "mtd" ∅
                                 (Some <$> nodes (ArrayItem.base self))]))).
Proof.
  destruct (EndEntry_fields self) as (mtd & -> & Htype & Hchildren & Hplain).
  unfold ArrayItem.EndRow, createNode.
  cbn [ArrayItem.base ArrayItem.table ArrayItem.row ArrayItem.frame
       ArrayItem.hfill ArrayItem.copyEnv ArrayItem.arraydef ArrayItem.dashed
       Clear itemProperty properties].
  change (properties (ArrayItem.base self) !! "isNumbered")
    with (itemProperty (ArrayItem.base self) "isNumbered").
  destruct (truthy _) eqn:Hnumbered; cbn [andb].
  - case_bool_decide as Hthree.
    + rewrite length_app in Hthree. simpl in Hthree.
      destruct (ArrayItem.row self) as [|c1 [|c2 [|c3 cells]]];
        try (by simpl in Hthree; lia).
      cbn. exists (Elem "mlabeledtr" ∅ [Some mtd; Some c1; Some c2]), mtd.
      split; [done|]. split; [done|]. split; [cbn; set_solver|].
      by repeat split.
    + exists (Elem "mtr" ∅ ((Some <$> ArrayItem.row self ++ [mtd]) ++ [])), mtd.
      split; [done|]. rewrite app_nil_r. cbn [getChildren].
      split; [rewrite length_fmap, length_app; simpl; lia|].
      split; [rewrite fmap_app; set_solver|]. by repeat split.
  - exists (Elem "mtr" ∅ ((Some <$> ArrayItem.row self ++ [mtd]) ++ [])), mtd.
    split; [done|]. rewrite app_nil_r. cbn [getChildren].
    split; [rewrite length_fmap, length_app; simpl; lia|].
    split; [rewrite fmap_app; set_solver|].
    repeat (split; [done|]). intros Hfill _. by rewrite (Hplain Hfill).
Qed.

(** X6: [EndTable] closes the cell and the row that are still open before
    it looks at the lines: with a payload or cells pending the table gains
    exactly one row, one cell longer than the pending row, with a cell
    that holds the payload; with neither, no empty row is added and the
    table stays as it is.  It returns whenever the rowlines and rowspacing
    entries are strings where they are used. *)
Theorem EndTable_rows `{!Helpers} (self : ArrayItem.t) :
  (truthy (ArrayItem.arraydef self !! "rowlines") = true →
   is_Some (asString (ArrayItem.arraydef self !! "rowlines"))) →
  (truthy (itemProperty (ArrayItem.base self) "rowspacing") = true →
   is_Some (asString (ArrayItem.arraydef self !! "rowspacing"))) →
  ∃ self', ArrayItem.EndTable self = Ok self'
    ∧ if (Size (ArrayItem.base self) =? 0)
         && bool_decide (length (ArrayItem.row self) = 0%nat)
      then ArrayItem.table self' = ArrayItem.table self
           ∧ ArrayItem.row self' = []
      else ∃ node cell,
           ArrayItem.table self' = ArrayItem.table self ++ [node]
           ∧ ArrayItem.row self' = []
           ∧ nodes (ArrayItem.base self') = []
           ∧ length (getChildren node) = S (length (ArrayItem.row self))
           ∧ Some cell ∈ getChildren node
           ∧ isType cell "mtd" = true
           ∧ getChildren cell = Some <$> nodes (ArrayItem.base self).
Proof.
  intros Hlines Hspacing. unfold ArrayItem.EndTable.
  assert (Hpending :
    ∃ self', ArrayItem.checkLines (ArrayItem.EndRow (ArrayItem.EndEntry self))
             = Ok self'
      ∧ ∃ node cell,
           ArrayItem.table self' = ArrayItem.table self ++ [node]
           ∧ ArrayItem.row self' = []
           ∧ nodes (ArrayItem.base self') = []
           ∧ length (getChildren node) = S (length (ArrayItem.row self))
           ∧ Some cell ∈ getChildren node
           ∧ isType cell "mtd" = true
           ∧ getChildren cell = Some <$> nodes (ArrayItem.base self)).
  { destruct (EndRow_EndEntry self)
      as (node & cell & Hmid & Hlen & Hin & Htype & Hcell & _).
    destruct (checkLines_fields (ArrayItem.EndRow (ArrayItem.EndEntry self)))
      as (self' & Hrun & Hkeep & _).
    { by rewrite Hmid. }
    { by rewrite Hmid. }
    exists self'. split; [done|]. exists node, cell.
    destruct Hkeep as (-> & -> & -> & _). rewrite Hmid.
    by repeat split. }
  destruct (Size _ =? 0) eqn:Hsize; cbn [negb orb andb]; [|done].
  case_bool_decide as Hrow; cbn [negb]; [|done].
  destruct (checkLines_fields self Hlines Hspacing)
    as (self' & Hrun & Hkeep & _).
  exists self'. split; [done|].
  destruct Hkeep as (_ & -> & -> & _).
  split; [done|]. by destruct (ArrayItem.row self).
Qed.

(** ** Array items: [checkItem] *)

Lemma cells_run `{!Helpers} (entry : StackItem)
    (payloads : list (list MmlNode)) :
  isClose entry = true →
  kind entry ≠ K_over →
  truthy (itemProperty entry "isEntry") = true →
  ∀ k props errs table row frame copyEnv arraydef dashed env,
    ArrayCheck.cells
      (ArrayCheck.Mk
         (ArrayItem.Mk (MkItem k [] props errs) table row frame []
                       copyEnv arraydef dashed) env)
      entry payloads
    = Ok (ArrayCheck.Mk
            (ArrayItem.Mk (MkItem k [] props errs) table
               (row ++ ((λ payload, Elem "mtd" ∅ (Some <$> payload))
                          <$> payloads))
               frame [] copyEnv arraydef dashed)
            (match payloads with [] => env | _ => ∅ end),
          replicate (length payloads) (CBool false)).
Proof.
  intros Hclose Hover Hentry.
  induction payloads as [|payload payloads IH];
    intros k props errs table row frame copyEnv arraydef dashed env.
  { simpl. by rewrite app_nil_r. }
  cbn [ArrayCheck.cells]. unfold ArrayCheck.checkItem at 1, isKind.
  rewrite Hclose, (bool_decide_eq_false_2 _ Hover), Hentry.
  cbn [negb andb mbind Result_bind ArrayCheck.Push ArrayCheck.array
       ArrayCheck.env ArrayCheck.clearEnv ArrayItem.base ArrayItem.table
       ArrayItem.row ArrayItem.frame ArrayItem.hfill ArrayItem.copyEnv
       ArrayItem.arraydef ArrayItem.dashed kind nodes properties errors app].
  destruct (EndEntry_fields
              (ArrayItem.Mk (MkItem k payload props errs) table row frame []
                            copyEnv arraydef dashed))
    as (mtd & -> & _ & _ & Hplain).
  rewrite (Hplain eq_refl).
  cbn [ArrayItem.base ArrayItem.table ArrayItem.row ArrayItem.frame
       ArrayItem.copyEnv ArrayItem.arraydef ArrayItem.dashed Clear
       kind nodes properties errors].
  unfold ArrayCheck.clearEnv, Clear.
  cbn [ArrayCheck.array kind properties errors].
  rewrite IH. cbn [mbind Result_bind fmap list_fmap length replicate].
  rewrite <- app_assoc. by destruct payloads.
Qed.

(** X7: the cells of a row.  An array item that is given the payloads of
    the cells of a row, each followed by a cell separator (a close item
    with 'isEntry'), and then the payload of the last cell followed by a
    row separator (a close item with 'isCR'), answers [false] to every one
    of the separators, so that each is discarded, and gains exactly one mtr
    whose children are the cells already in the row and one mtd per
    payload, in order; row, payload and environment are left empty. *)
Theorem ArrayCheck_row `{!Helpers} (self : ArrayCheck.t)
    (entry cr : StackItem) (payloads : list (list MmlNode))
    (payload : list MmlNode) :
  isClose entry = true → kind entry ≠ K_over →
  truthy (itemProperty entry "isEntry") = true →
  isClose cr = true → kind cr ≠ K_over →
  truthy (itemProperty cr "isEntry") = false →
  truthy (itemProperty cr "isCR") = true →
  nodes (ArrayItem.base (ArrayCheck.array self)) = [] →
  ArrayItem.hfill (ArrayCheck.array self) = [] →
  truthy (itemProperty (ArrayItem.base (ArrayCheck.array self)) "isNumbered")
  = false →
  ∃ filled self',
    ArrayCheck.cells self entry payloads
    = Ok (filled, replicate (length payloads) (CBool false))
    ∧ ArrayCheck.checkItem (ArrayCheck.Push filled payload) cr
      = Ok (self', CBool false)
    ∧ ArrayItem.table (ArrayCheck.array self')
      = ArrayItem.table (ArrayCheck.array self)
        ++ [Elem "mtr" ∅
              (Some <$> (ArrayItem.row (ArrayCheck.array self)
                         ++ ((λ cell, Elem "mtd" ∅ (Some <$> cell))
                               <$> (payloads ++ [payload]))))]
    ∧ ArrayItem.row (ArrayCheck.array self') = []
    ∧ nodes (ArrayItem.base (ArrayCheck.array self')) = []
    ∧ ArrayCheck.env self' = ∅.
Proof.
  intros Hclose Hover Hentry Hclose' Hover' Hentry' Hcr Hnodes Hfill Hplain.
  destruct self as [[[k ns props errs] table row frame hfill copyEnv
                     arraydef dashed] env].
  cbn in Hnodes, Hfill, Hplain. subst ns hfill.
  eexists. rewrite (cells_run entry payloads Hclose Hover Hentry).
  eexists. split; [reflexivity|].
  unfold ArrayCheck.checkItem, isKind.
  rewrite Hclose', (bool_decide_eq_false_2 _ Hover'), Hentry', Hcr.
  cbn [negb andb ArrayCheck.Push ArrayCheck.array ArrayCheck.env
       ArrayCheck.clearEnv ArrayItem.base ArrayItem.table
       ArrayItem.row ArrayItem.frame ArrayItem.hfill ArrayItem.copyEnv
       ArrayItem.arraydef ArrayItem.dashed kind nodes properties errors app].
  destruct (EndRow_EndEntry
              (ArrayItem.Mk (MkItem k payload props errs) table
                 (row ++ ((λ cell, Elem "mtd" ∅ (Some <$> cell)) <$> payloads))
                 frame [] copyEnv arraydef dashed))
    as (node & cell & -> & _ & _ & _ & _ & Hnode).
  rewrite (Hnode eq_refl Hplain).
  split; [reflexivity|]. cbn.
  rewrite (fmap_app _ payloads), app_assoc. by repeat split.
Qed.

Lemma EndTable_fields `{!Helpers} (self : ArrayItem.t) :
  (truthy (ArrayItem.arraydef self !! "rowlines") = true →
   is_Some (asString (ArrayItem.arraydef self !! "rowlines"))) →
  (truthy (itemProperty (ArrayItem.base self) "rowspacing") = true →
   is_Some (asString (ArrayItem.arraydef self !! "rowspacing"))) →
  ∃ arr, ArrayItem.EndTable self = Ok arr
    ∧ properties (ArrayItem.base arr) = properties (ArrayItem.base self)
    ∧ (truthy (ArrayItem.arraydef arr !! "rowlines") = true →
       is_Some (asString (ArrayItem.arraydef arr !! "rowlines"))).
Proof.
  intros Hlines Hspacing. unfold ArrayItem.EndTable.
  destruct (negb _ || negb _).
  - destruct (EndRow_EndEntry self) as (node & cell & Hmid & _).
    destruct (checkLines_fields (ArrayItem.EndRow (ArrayItem.EndEntry self)))
      as (arr & Hrun & Hkeep & Htyped); [by rewrite Hmid..|].
    exists arr. split; [done|]. split; [|done].
    destruct Hkeep as (-> & _). by rewrite Hmid.
  - destruct (checkLines_fields self Hlines Hspacing)
      as (arr & Hrun & Hkeep & Htyped).
    exists arr. split; [done|]. split; [|done].
    by destruct Hkeep as (-> & _).
Qed.

Lemma frameTable_runs (arr : ArrayItem.t) (mml : MmlNode) :
  (truthy (ArrayItem.arraydef arr !! "rowlines") = true →
   is_Some (asString (ArrayItem.arraydef arr !! "rowlines"))) →
  ArrayItem.arraydef arr !! "scriptlevel" = None →
  ∃ arr' mml',
    ArrayCheck.frameTable arr mml = Ok (arr', mml')
    ∧ ArrayItem.base arr' = ArrayItem.base arr
    ∧ ArrayItem.arraydef arr' !! "scriptlevel" = None.
Proof.
  intros Htyped Hlevel. unfold ArrayCheck.frameTable.
  case_bool_decide; [by eauto|].
  case_bool_decide; cbn [negb]; [by eauto|].
  destruct (truthy _) eqn:Hrowlines.
  - destruct (Htyped eq_refl) as [s ->].
    cbn [asString defined mbind Result_bind].
    eexists _, _. split; [reflexivity|]. split; [done|].
    cbn. by rewrite lookup_insert_ne.
  - cbn [mbind Result_bind]. by eauto.
Qed.

Lemma frameTable_frame (arr : ArrayItem.t) (mml : MmlNode)
    (arr' : ArrayItem.t) (framed : MmlNode) :
  ArrayCheck.frameTable arr mml = Ok (arr', framed) →
  ArrayItem.table arr' = ArrayItem.table arr
  ∧ if bool_decide (length (ArrayItem.frame arr) = 4%nat)
    then arr' = arr
         ∧ framed = setAttribute mml "frame"
                      (VStr (if ArrayItem.dashed arr then "dashed"
                             else "solid"))
    else if bool_decide (length (ArrayItem.frame arr) = 0%nat)
    then arr' = arr ∧ framed = mml
    else isType framed "menclose" = true
         ∧ getChildren framed = [Some mml]
         ∧ getAttribute framed "notation"
           = Some (VStr (join (ArrayItem.frame arr)))
         ∧ getAttribute framed "isFrame" = Some (VBool true)
         ∧ getAttribute framed "padding"
           = (if ArrayCheck.notNone (ArrayItem.arraydef arr' !! "columnlines")
                 || ArrayCheck.notNone (ArrayItem.arraydef arr' !! "rowlines")
              then Some (VNum 0) else None)
         ∧ ArrayItem.arraydef arr' !! "rowlines"
           = match ArrayItem.arraydef arr !! "rowlines" with
             | Some (VStr s) =>
                 if String.eqb s "" then Some (VStr s)
                 else Some (VStr (ArrayCheck.replaceNone s))
             | other => other
             end.
Proof.
  unfold ArrayCheck.frameTable.
  case_bool_decide; [by intros [= <- <-]|].
  case_bool_decide; cbn [negb]; [by intros [= <- <-]|].
  assert (Hrest : ∀ arr2 : ArrayItem.t,
    (let mml := createNode "menclose" [Some mml]
                  {["notation" := VStr (join (ArrayItem.frame arr2));
                    "isFrame" := VBool true]} None in
     let mml := if ArrayCheck.notNone (ArrayItem.arraydef arr2 !! "columnlines")
                   || ArrayCheck.notNone (ArrayItem.arraydef arr2 !! "rowlines")
                then setAttribute mml "padding" (VNum 0)
                else mml in
     Ok (arr2, mml)) = Ok (arr', framed) →
    arr' = arr2
    ∧ isType framed "menclose" = true
    ∧ getChildren framed = [Some mml]
    ∧ getAttribute framed "notation"
      = Some (VStr (join (ArrayItem.frame arr2)))
    ∧ getAttribute framed "isFrame" = Some (VBool true)
    ∧ getAttribute framed "padding"
      = (if ArrayCheck.notNone (ArrayItem.arraydef arr' !! "columnlines")
            || ArrayCheck.notNone (ArrayItem.arraydef arr' !! "rowlines")
         then Some (VNum 0) else None)).
  { intros arr2. cbv zeta. intros [= <- <-].
    destruct (ArrayCheck.notNone _ || ArrayCheck.notNone _);
      repeat split; cbn;
      by rewrite ?lookup_insert_eq, ?lookup_insert_ne, ?lookup_insert_eq. }
  destruct (ArrayItem.arraydef arr !! "rowlines") as [[s| | | |]|] eqn:Hrl;
    cbn [truthy asString defined mbind Result_bind negb].
  - destruct (String.eqb s "") eqn:Hs; cbn [negb mbind Result_bind];
      intros Hrun; apply Hrest in Hrun as (-> & ? & ? & ? & ? & ?);
      repeat (split; [done|]);
      cbn [ArrayCheck.withArraydef ArrayItem.arraydef];
      by rewrite ?lookup_insert_eq, ?Hrl, ?Hs.
  - destruct (negb (z =? 0)); cbn [mbind Result_bind]; [done|].
    intros Hrun; apply Hrest in Hrun as (-> & ? & ? & ? & ? & ?).
    repeat (split; [done|]). by rewrite Hrl.
  - destruct b; cbn [mbind Result_bind]; [done|].
    intros Hrun; apply Hrest in Hrun as (-> & ? & ? & ? & ? & ?).
    repeat (split; [done|]). by rewrite Hrl.
  - done.
  - done.
  - intros Hrun; apply Hrest in Hrun as (-> & ? & ? & ? & ? & ?).
    repeat (split; [done|]). by rewrite Hrl.
Qed.

(** X8: closing the table.  A close item other than 'over' that is neither
    a cell nor a row separator closes the array item.  The rows that
    [EndTable] leaves become the children of an mtable that carries
    [arraydef] without its scriptlevel entry; the mtable gets a frame
    attribute for a frame of four sides and is put in an menclose naming
    the sides for a smaller frame; the result is put in an mstyle when a
    scriptlevel was given and fenced when the item has an 'open' or a
    'close' delimiter.  The answer is the mml item of that node followed by
    the closing item itself; when the array item requires a close brace,
    the answer is the mml item alone for a closing item of kind 'close',
    and the 'Missing close brace' error for any other.  The environment is
    left empty. *)
Theorem ArrayCheck_close `{!Helpers} (self : ArrayCheck.t)
    (item : StackItem) :
  isClose item = true → kind item ≠ K_over →
  truthy (itemProperty item "isEntry") = false →
  truthy (itemProperty item "isCR") = false →
  (truthy (ArrayItem.arraydef (ArrayCheck.array self) !! "rowlines") = true →
   is_Some (asString
              (ArrayItem.arraydef (ArrayCheck.array self) !! "rowlines"))) →
  (truthy (itemProperty (ArrayItem.base (ArrayCheck.array self))
                        "rowspacing") = true →
   is_Some (asString
              (ArrayItem.arraydef (ArrayCheck.array self) !! "rowspacing"))) →
  ∃ (arr arr' : ArrayItem.t) (framed : MmlNode),
    ArrayItem.EndTable (ArrayCheck.array self) = Ok arr
    ∧ let scriptlevel := ArrayItem.arraydef arr !! "scriptlevel" in
      let arraydef := delete "scriptlevel" (ArrayItem.arraydef arr) in
      let mtable := Elem "mtable" arraydef (Some <$> ArrayItem.table arr) in
      let open := itemProperty (ArrayItem.base (ArrayCheck.array self)) "open" in
      let close :=
        itemProperty (ArrayItem.base (ArrayCheck.array self)) "close" in
      let requireClose :=
        truthy (itemProperty (ArrayItem.base (ArrayCheck.array self))
                             "requireClose") in
      ArrayCheck.frameTable (ArrayCheck.withArraydef arr arraydef) mtable
      = Ok (arr', framed)
      ∧ ArrayItem.table arr' = ArrayItem.table arr
      ∧ ArrayItem.arraydef arr' !! "scriptlevel" = None
      ∧ (if bool_decide (length (ArrayItem.frame arr) = 4%nat)
         then framed = setAttribute mtable "frame"
                         (VStr (if ArrayItem.dashed arr then "dashed"
                                else "solid"))
         else if bool_decide (length (ArrayItem.frame arr) = 0%nat)
         then framed = mtable
         else isType framed "menclose" = true
              ∧ getChildren framed = [Some mtable]
              ∧ getAttribute framed "notation"
                = Some (VStr (join (ArrayItem.frame arr)))
              ∧ getAttribute framed "isFrame" = Some (VBool true))
      ∧ ∃ styled node : MmlNode,
          styled = match scriptlevel with
                   | Some level =>
                       if truthy scriptlevel
                       then Elem "mstyle" {["scriptlevel" := level]}
                                 [Some framed]
                       else framed
                   | None => framed
                   end
          ∧ node = (if truthy open || truthy close
                    then fenced open styled close else styled)
          ∧ if requireClose && negb (bool_decide (kind item = K_close))
            then ArrayCheck.checkItem self item
                 = Throw (TexError (Some (MkTexError "MissingCloseBrace"
                                            "Missing close brace" [])))
            else ArrayCheck.checkItem self item
                 = Ok (ArrayCheck.Mk arr' ∅,
                       if requireClose then CItem (MmlItem.new node)
                       else CList [EItem (MmlItem.new node); EItem item]).
Proof.
  intros Hclose Hover Hentry Hcr Hlines Hspacing.
  destruct (EndTable_fields (ArrayCheck.array self) Hlines Hspacing)
    as (arr & Hrun & Hprops & Htyped).
  set (arr1 := ArrayCheck.withArraydef arr
                 (delete "scriptlevel" (ArrayItem.arraydef arr))).
  set (mtable := Elem "mtable" (delete "scriptlevel" (ArrayItem.arraydef arr))
                      (Some <$> ArrayItem.table arr)).
  destruct (frameTable_runs arr1 mtable)
    as (arr2 & framed & Hframe & Hbase & Hlevel).
  { unfold arr1. cbn. by rewrite lookup_delete_ne. }
  { unfold arr1. cbn. apply lookup_delete_eq. }
  exists arr, arr2, framed. split; [done|]. cbv zeta.
  fold arr1 mtable. split; [done|].
  destruct (frameTable_frame arr1 mtable arr2 framed Hframe)
    as (Htable & Hcases).
  split; [done|]. split; [done|]. split.
  { change (ArrayItem.frame arr1) with (ArrayItem.frame arr) in Hcases.
    change (ArrayItem.dashed arr1) with (ArrayItem.dashed arr) in Hcases.
    repeat case_bool_decide; [by destruct Hcases..|].
    destruct Hcases as (? & ? & ? & ? & _). by repeat split. }
  eexists _, _. split; [reflexivity|]. split; [reflexivity|].
  unfold ArrayCheck.checkItem, isKind.
  rewrite Hclose, (bool_decide_eq_false_2 _ Hover), Hentry, Hcr, Hrun.
  cbn [negb andb mbind Result_bind]. fold arr1.
  assert (Hmtable : createNode "mtable" (Some <$> ArrayItem.table arr1)
                               (ArrayItem.arraydef arr1) None = mtable).
  { unfold createNode, mtable, arr1. cbn. by rewrite app_nil_r. }
  rewrite Hmtable, Hframe. cbn [mbind Result_bind]. rewrite Hbase.
  assert (Hitem : ∀ name, itemProperty (ArrayItem.base arr1) name
                          = itemProperty
                              (ArrayItem.base (ArrayCheck.array self)) name).
  { intros name. unfold itemProperty, arr1. cbn. by rewrite Hprops. }
  unfold ArrayCheck.wrapTable, ArrayCheck.clearEnv. rewrite !Hitem.
  cbn [ArrayCheck.array].
  assert (Hstyle : ∀ level,
            createNode "mstyle" [Some framed] {["scriptlevel" := level]} None
            = Elem "mstyle" {["scriptlevel" := level]} [Some framed])
    by done.
  destruct (truthy (itemProperty _ "requireClose")); cbn [andb];
    [destruct (bool_decide (kind item = K_close)); cbn [negb]|];
    destruct (ArrayItem.arraydef arr !! "scriptlevel") as [level|];
    rewrite ?Hstyle; done.
Qed.

Lemma stripPrefix_Some (prefix s rest : string) :
  ArrayCheck.stripPrefix prefix s = Some rest → s = prefix +:+ rest.
Proof.
  revert s. induction prefix as [|a prefix IH]; intros s.
  { by intros [= ->]. }
  destruct s as [|b s]; [done|]. cbn [ArrayCheck.stripPrefix].
  destruct (Ascii.eqb a b) eqn:Hab; [|done].
  apply Ascii.eqb_eq in Hab as ->. intros Hrest.
  change (String b prefix +:+ rest) with (String b (prefix +:+ rest)).
  by rewrite (IH s Hrest).
Qed.

Lemma lastChar_append (prefix rest : string) :
  rest ≠ "" → lastChar (prefix +:+ rest) = lastChar rest.
Proof.
  intros Hrest. induction prefix as [|a prefix IH]; [done|].
  change (String a prefix +:+ rest) with (String a (prefix +:+ rest)).
  cbn [lastChar]. destruct (prefix +:+ rest) eqn:Happ; [|done].
  by destruct prefix, rest.
Qed.

Lemma lastChar_allSpaces (s : string) :
  s ≠ "" → ArrayCheck.allSpaces s = true → lastChar s = Some " "%char.
Proof.
  induction s as [|c s IH]; [done|]. intros _.
  cbn [ArrayCheck.allSpaces]. intros [Hc Hs]%andb_true_iff.
  apply Ascii.eqb_eq in Hc as ->.
  destruct s as [|c' s]; [done|]. by apply IH.
Qed.

Lemma matchesHere_lastChar (s : string) :
  ArrayCheck.matchesHere s = true → lastChar s = Some " "%char.
Proof.
  unfold ArrayCheck.matchesHere.
  destruct (ArrayCheck.stripPrefix _ s) as [rest|] eqn:Hstrip; [|done].
  apply stripPrefix_Some in Hstrip as ->.
  destruct rest as [|c1 [|c2 rest]]; try done. intros Hspaces.
  rewrite lastChar_append by done. by apply lastChar_allSpaces.
Qed.

Lemma stripTrailing_allSpaces (s : string) :
  ArrayCheck.allSpaces s = true → stripTrailing s = "".
Proof.
  induction s as [|c s IH]; [done|]. cbn [ArrayCheck.allSpaces stripTrailing].
  intros [Hc Hs]%andb_true_iff. by rewrite (IH Hs), Hc.
Qed.

Lemma stripTrailing_append_spaces (s spaces : string) :
  stripTrailing spaces = "" → stripTrailing (s +:+ spaces) = stripTrailing s.
Proof.
  intros Hspaces. induction s as [|c s IH]; [done|].
  change (String c s +:+ spaces) with (String c (s +:+ spaces)).
  cbn [stripTrailing]. by rewrite IH.
Qed.

Lemma stripTrailing_append_kept (s kept : string) :
  kept ≠ "" → stripTrailing kept = kept → stripTrailing (s +:+ kept) = s +:+ kept.
Proof.
  intros Hne Hkept. induction s as [|c s IH]; [done|].
  change (String c s +:+ kept) with (String c (s +:+ kept)).
  cbn [stripTrailing]. rewrite IH.
  destruct (s +:+ kept) eqn:Happ; [|done].
  by destruct s, kept.
Qed.

Lemma matchesHere_form (s : string) :
  ArrayCheck.matchesHere s = true →
  ∃ spaces, s = "none none" +:+ spaces
            ∧ (2 ≤ String.length spaces)%nat
            ∧ ArrayCheck.allSpaces spaces = true.
Proof.
  unfold ArrayCheck.matchesHere.
  destruct (ArrayCheck.stripPrefix _ s) as [rest|] eqn:Hstrip; [|done].
  apply stripPrefix_Some in Hstrip as ->.
  destruct rest as [|c1 [|c2 rest]]; try done. intros Hspaces.
  eexists. split; [done|]. split; [simpl; lia | done].
Qed.

Lemma length_append (a b : string) :
  String.length (a +:+ b) = (String.length a + String.length b)%nat.
Proof.
  induction a as [|c a IH]; [done|].
  change (String c a +:+ b) with (String c (a +:+ b)). simpl. by rewrite IH.
Qed.

(** Inside a pattern that ends with "none none" and spaces, the match can
    only start where that "none none" starts. *)
Lemma matchesHere_inside (c : ascii) (prefix spaces : string) :
  ArrayCheck.allSpaces spaces = true →
  ArrayCheck.matchesHere (String c prefix +:+ "none none" +:+ spaces) = false.
Proof.
  intros Hspaces.
  destruct (ArrayCheck.matchesHere _) eqn:Hmatch; [|done]. exfalso.
  apply matchesHere_form in Hmatch as (spaces' & Heq & _ & Hspaces').
  assert (Hleft : stripTrailing (String c prefix +:+ "none none" +:+ spaces)
                  = String c prefix +:+ "none none").
  { rewrite <- append_assoc.
    rewrite stripTrailing_append_spaces by by apply stripTrailing_allSpaces.
    by apply stripTrailing_append_kept. }
  assert (Hright : stripTrailing ("none none" +:+ spaces') = "none none").
  { by rewrite stripTrailing_append_spaces
      by by apply stripTrailing_allSpaces. }
  rewrite Heq, Hright in Hleft.
  apply (f_equal String.length) in Hleft.
  rewrite length_append in Hleft. simpl in Hleft. lia.
Qed.

(** X9: the rowlines replacement of a partly framed table,
    [replace(/none( none) + $/, 'none')], replaces the "none none" at the
    end of a pattern, with the two spaces or more that follow it, by
    "none", whatever comes before; it changes nothing else: a pattern that
    it changes has this form, and a pattern that does not end in a space,
    as the entries written by [checkLines] joined by single spaces, is left
    as it is. *)
Theorem replaceNone_trailing (s : string) :
  (lastChar s ≠ Some " "%char → ArrayCheck.replaceNone s = s)
  ∧ (∀ prefix spaces, (2 ≤ String.length spaces)%nat →
       ArrayCheck.allSpaces spaces = true →
       s = prefix +:+ "none none" +:+ spaces →
       ArrayCheck.replaceNone s = prefix +:+ "none")
  ∧ (ArrayCheck.replaceNone s ≠ s →
     ∃ prefix spaces, (2 ≤ String.length spaces)%nat
       ∧ ArrayCheck.allSpaces spaces = true
       ∧ s = prefix +:+ "none none" +:+ spaces).
Proof.
  split; [|split].
  - induction s as [|c s IH]; [done|]. intros Hlast.
    cbn [ArrayCheck.replaceNone].
    destruct (ArrayCheck.matchesHere (String c s)) eqn:Hmatch.
    { by apply matchesHere_lastChar in Hmatch. }
    f_equal. destruct s as [|c' s]; [done|]. by apply IH.
  - intros prefix spaces Hlen Hspaces ->.
    induction prefix as [|c prefix IH].
    + destruct spaces as [|c1 [|c2 spaces]]; try (simpl in Hlen; lia).
      change ("" +:+ "none none" +:+ String c1 (String c2 spaces))
        with (String "n" ("one none" +:+ String c1 (String c2 spaces))).
      cbn [ArrayCheck.replaceNone].
      assert (Hmatch : ArrayCheck.matchesHere
                         (String "n" ("one none"
                                      +:+ String c1 (String c2 spaces)))
                       = true) by exact Hspaces.
      by rewrite Hmatch.
    + pose proof (matchesHere_inside c prefix spaces Hspaces) as Hinside.
      change (String c prefix +:+ "none none" +:+ spaces)
        with (String c (prefix +:+ "none none" +:+ spaces)) in *.
      cbn [ArrayCheck.replaceNone]. rewrite Hinside.
      change (String c prefix +:+ "none") with (String c (prefix +:+ "none")).
      by rewrite IH.
  - induction s as [|c s IH]; [done|].
    cbn [ArrayCheck.replaceNone].
    destruct (ArrayCheck.matchesHere (String c s)) eqn:Hmatch.
    + intros _. apply matchesHere_form in Hmatch as (spaces & -> & ? & ?).
      by exists "", spaces.
    + intros Hchanged.
      destruct IH as (prefix & spaces & ? & ? & ->); [congruence|].
      by exists (String c prefix), spaces.
Qed.

(** ** The kinds of items *)

(** X10: over the item classes of BaseItems.ts no item is both open and
    close, the final items are exactly the mml items, and a final item is
    neither open nor close. *)
Theorem flags_exclusive (item : StackItem) :
  isOpen item && isClose item = false
  ∧ (isFinal item = true ↔ kind item = K_mml)
  ∧ (isFinal item = true → isOpen item = false ∧ isClose item = false).
Proof.
  unfold isOpen, isClose, isFinal.
  destruct (kind item); repeat split; done.
Qed.

(** ** Position items *)

(** X11: a position item met by a close item fails with the 'Missing box
    for %1' error carrying its own name; met by a final item, a vertical
    move answers with one mml item only, an mpadded around the incoming
    content whose height and voffset are the 'dh' property and whose depth
    is the 'dd' property, and a horizontal move answers with the left
    spacer, the incoming item itself and the right spacer, in this
    order. *)
Theorem PositionItem_checkItem_moves `{!Helpers} (self item : StackItem) :
  (isClose item = true →
   PositionItem.checkItem self item
   = Some (Throw (TexError (Some (MkTexError "MissingBoxFor"
                                    "Missing box for %1" [getName self])))))
  ∧ (isFinal item = true →
     itemProperty self "move" = Some (VStr "vertical") →
     ∃ (mml : StackItem) (padded : MmlNode),
       PositionItem.checkItem self item = Some (Ok (CList [EItem mml]))
       ∧ kind mml = K_mml
       ∧ nodes mml = [padded]
       ∧ isType padded "mpadded" = true
       ∧ getChildren padded = [Some (toMml (nodes item) true)]
       ∧ getAttribute padded "height" = itemProperty self "dh"
       ∧ getAttribute padded "voffset" = itemProperty self "dh"
       ∧ getAttribute padded "depth" = itemProperty self "dd")
  ∧ (∀ lspace rspace : MmlNode,
       isFinal item = true →
       itemProperty self "move" = Some (VStr "horizontal") →
       itemProperty self "left" = Some (VNode lspace) →
       itemProperty self "right" = Some (VNode rspace) →
       PositionItem.checkItem self item
       = Some (Ok (CList [EItem (MmlItem.new lspace); EItem item;
                          EItem (MmlItem.new rspace)]))).
Proof.
  unfold PositionItem.checkItem. split; [|split].
  - by intros ->.
  - intros Hfinal ->. rewrite Hfinal.
    replace (isClose item) with false
      by (unfold isFinal, isClose in *; by destruct (kind item)).
    cbn. eexists _, _. split; [reflexivity|]. repeat (split; [done|]).
    unfold optionalEntry.
    destruct (itemProperty self "dh") as [dh|], (itemProperty self "dd") as [dd|];
      repeat split;
      by rewrite ?lookup_insert_eq, ?lookup_insert_ne, ?lookup_insert_eq,
           ?lookup_empty.
  - intros lspace rspace Hfinal -> -> ->. rewrite Hfinal.
    replace (isClose item) with false
      by (unfold isFinal, isClose in *; by destruct (kind item)).
    done.
Qed.

(** ** Dots items *)

(** X12: a dots item leaves an incoming open or left item to be pushed;
    any other item it answers with one of its two dots nodes followed by
    the incoming item: the 'cdots' node exactly when the incoming item is
    an mml item whose top node is embellished and whose core operator has
    TeX class BIN or REL, the 'ldots' node in every other case. *)
Theorem DotsItem_checkItem_choice `{!Helpers}
    (getTexClass : MmlNode → TEXCLASS) (self item : StackItem)
    (ldots cdots : MmlNode) :
  itemProperty self "ldots" = Some (VNode ldots) →
  itemProperty self "cdots" = Some (VNode cdots) →
  (kind item = K_mml → is_Some (Top item)) →
  let centered :=
    match Top item with
    | Some top =>
        bool_decide (kind item = K_mml) && isEmbellished top
        && match getTexClass (getCoreMO top) with
           | BIN | REL => true
           | _ => false
           end
    | None => false
    end in
  DotsItem.checkItem getTexClass self item
  = if bool_decide (kind item = K_open) || bool_decide (kind item = K_left)
    then Some (Ok (CBool true))
    else Some (Ok (CList [ENode (if centered then cdots else ldots);
                          EItem item])).
Proof.
  intros Hldots Hcdots Htop centered.
  unfold DotsItem.checkItem, isKind. rewrite Hldots, Hcdots.
  destruct (bool_decide (kind item = K_open) || bool_decide (kind item = K_left));
    [done|].
  unfold centered. case_bool_decide as Hmml.
  - destruct (Htop Hmml) as [top ->]. cbn [andb asNode].
    destruct (isEmbellished top); [|done].
    by destruct (getTexClass (getCoreMO top)).
  - cbn [asNode]. by destruct (Top item).
Qed.

(** ** Open items *)

(** X13: an open item met by a close item reduces to the single mml item
    of a TeXAtom whose only child is the payload, built by [toMml] and
    cleaned by [cleanSubSup]; it registers the 'Extra open brace or missing
    close brace' error for the 'stop' kind, and an open item met by the
    stop item fails with that error. *)
Theorem OpenItem_checkItem_close_stop `{!Helpers}
    (cleanSubSup : MmlNode → MmlNode) (self item : StackItem) :
  (kind item = K_close →
   ∃ (mml : StackItem) (atom : MmlNode),
     OpenItem.checkItem cleanSubSup self item = Ok (CItem mml)
     ∧ kind mml = K_mml
     ∧ nodes mml = [atom]
     ∧ isType atom "TeXAtom" = true
     ∧ getChildren atom = [Some (cleanSubSup (toMml (nodes self) true))])
  ∧ errors OpenItem.new !! "stop"
    = Some (MkTexError "ExtraOpenMissingClose"
                       "Extra open brace or missing close brace" [])
  ∧ (kind item = K_stop → errors self = errors OpenItem.new →
     OpenItem.checkItem cleanSubSup self item
     = Throw (TexError (Some (MkTexError "ExtraOpenMissingClose"
                                "Extra open brace or missing close brace"
                                [])))).
Proof.
  unfold OpenItem.checkItem, isKind. split; [|split].
  - intros ->. rewrite bool_decide_eq_true_2 by done.
    eexists _, _. split; [reflexivity|]. by repeat split.
  - apply lookup_insert_eq.
  - intros Hstop Herrors.
    rewrite bool_decide_eq_false_2 by (rewrite Hstop; done).
    unfold BaseItem.checkItem, isClose. rewrite Hstop, Herrors.
    cbn [kind_name OpenItem.new setError errors].
    by rewrite lookup_insert_eq.
Qed.

(** ** Fn and subsup items, over all their branches *)

(** X14: a fn item that holds its function node never fails and never
    drops or reorders what it is given: an incoming open item is left to be
    pushed, and for any other item the answer starts with the function
    node, ends with the incoming item, and has between them nothing or the
    apply-function operator alone. *)
Theorem FnItem_checkItem_shape `{!Helpers} (self item : StackItem)
    (top : MmlNode) :
  Top self = Some top →
  if isOpen item then FnItem.checkItem self item = Ok (CBool true)
  else ∃ between : list StackEntry,
         FnItem.checkItem self item
         = Ok (CList (ENode top :: between ++ [EItem item]))
         ∧ (between = [] ∨ between = [ENode FnItem.applyFunctionNode]).
Proof.
  intros Htop. unfold FnItem.checkItem. rewrite Htop.
  destruct (isOpen item); [done|].
  assert (Hkeep : ∃ between : list StackEntry,
             Ok (CList [ENode top; EItem item])
             = Ok (CList (ENode top :: between ++ [EItem item]))
             ∧ (between = [] ∨ between = [ENode FnItem.applyFunctionNode]))
    by (exists []; eauto).
  assert (Hinsert : ∃ between : list StackEntry,
             Ok (CList [ENode top; ENode FnItem.applyFunctionNode; EItem item])
             = Ok (CList (ENode top :: between ++ [EItem item]))
             ∧ (between = [] ∨ between = [ENode FnItem.applyFunctionNode]))
    by (exists [ENode FnItem.applyFunctionNode]; eauto).
  destruct (negb (isKind item K_fn)); [|done].
  destruct (Top item) as [mml|]; [|done].
  destruct (negb (isKind item K_mml)); [done|].
  destruct (isType mml "mspace"); [done|].
  destruct (getForm _) as [[[lspace rspace] form2]|]; [|done].
  by destruct (FnItem.formEntry form2).
Qed.

(** X15: a subsup item without queued primes that receives an mml item
    writes the incoming subtree into the child slot its 'position' names
    and into no other slot of the base node, keeps the type of the base,
    and answers with the single mml item of that node; the 'movesupsub'
    property, when the item has one, is copied onto the node. *)
Theorem SubsupItem_checkItem_script `{!Helpers} (self item : StackItem)
    (k : string) (attrs : PropertyList) (cs : list (option MmlNode))
    (position : Z) :
  Top self = Some (Elem k attrs cs) →
  itemProperty self "position" = Some (VNum position) →
  0 ≤ position →
  truthy (itemProperty self "primes") = false →
  kind item = K_mml →
  ∃ (mml : StackItem) (top : MmlNode),
    SubsupItem.checkItem self item = Ok (CItem mml)
    ∧ kind mml = K_mml
    ∧ nodes mml = [top]
    ∧ isType top k = true
    ∧ childAt top (Z.to_nat position) = Top item
    ∧ (∀ j, j ≠ Z.to_nat position →
            childAt top j = childAt (Elem k attrs cs) j)
    ∧ match itemProperty self "movesupsub" with
      | Some v => getProperty top "movesupsub" = Some v
      | None => getProperty top = getProperty (Elem k attrs cs)
      end.
Proof.
  intros Htop Hposition Hpos Hprimes Hmml.
  unfold SubsupItem.checkItem, isKind.
  rewrite Hmml, Hposition, Hprimes, Htop.
  cbn [bool_decide decide_rel orb defined mbind Result_bind asNumber].
  destruct (setData_Elem k attrs cs position (Top item)) as [cs' Hcs'].
  assert (Hslots : childAt (Elem k attrs cs') (Z.to_nat position) = Top item
                   ∧ ∀ j, j ≠ Z.to_nat position →
                          childAt (Elem k attrs cs') j
                          = childAt (Elem k attrs cs) j).
  { rewrite <- Hcs'. split.
    - by apply childAt_setData_eq.
    - intros j Hj. apply childAt_setData_ne. lia. }
  rewrite Hcs'. destruct Hslots as [Hslot Hothers].
  destruct (itemProperty self "movesupsub") as [moves|];
    eexists _, _; (split; [reflexivity|]);
    (split; [reflexivity|]); (split; [reflexivity|]);
    (split; [cbn; apply String.eqb_refl|]);
    (split; [exact Hslot|]); (split; [exact Hothers|]).
  - cbn. rewrite lookup_union, lookup_singleton_eq.
    by destruct (attrs !! "movesupsub").
  - done.
Qed.

(** ** The properties at work *)

(** Three rows with a line under the last, and one row with a line under
    it. *)
Lemma checkLines_bottom_witness :
  (∃ self' s' entry,
     ArrayItem.checkLines (H := Plain.helpers) Samples.lined = Ok self'
     ∧ ArrayItem.frame self' = ArrayItem.frame Samples.lined ++ ["bottom"]
     ∧ ArrayItem.table self' = ArrayItem.table Samples.lined
     ∧ ArrayItem.arraydef self' !! "rowlines" = Some (VStr s')
     ∧ split "solid none solid" = pop (split "solid none solid") ++ [entry]
     ∧ s' = join (pop (split "solid none solid"))
     ∧ "solid none solid" = s' +:+ " " +:+ entry
     ∧ split s' = pop (split "solid none solid")
     ∧ length (split s') = 2%nat)
  ∧ (∃ self' s' entry,
       ArrayItem.checkLines (H := Plain.helpers) Samples.underlined = Ok self'
       ∧ ArrayItem.frame self' = ArrayItem.frame Samples.underlined ++ ["bottom"]
       ∧ ArrayItem.table self' = ArrayItem.table Samples.underlined
       ∧ ArrayItem.arraydef self' !! "rowlines" = Some (VStr s')
       ∧ split "solid" = pop (split "solid") ++ [entry]
       ∧ s' = join (pop (split "solid"))
       ∧ s' = "" ∧ "solid" = entry).
Proof.
  split.
  - apply (checkLines_bottom (H := Plain.helpers) Samples.lined
             "solid none solid"); [reflexivity | discriminate | reflexivity |].
    intros Hspacing. vm_compute in Hspacing. discriminate.
  - apply (checkLines_bottom (H := Plain.helpers) Samples.underlined "solid");
      [reflexivity | discriminate | reflexivity |].
    intros Hspacing. vm_compute in Hspacing. discriminate.
Defined.

Lemma checkLines_rowspacing_witness :
  ∃ self' spacing',
    ArrayItem.checkLines (H := Plain.helpers) Samples.spaced = Ok self'
    ∧ ArrayItem.table self' = ArrayItem.table Samples.spaced
    ∧ ArrayItem.arraydef self' !! "rowspacing" = Some (VStr spacing')
    ∧ split spacing' = ["1em"; "2em"; "2em"]
    ∧ length (split spacing') = 3%nat
    ∧ ((length (ArrayItem.table Samples.spaced) ≤ length (split "1em"))%nat →
       spacing' = "1em").
Proof.
  apply (checkLines_rowspacing (H := Plain.helpers) Samples.spaced "1em");
    [reflexivity | reflexivity | | reflexivity].
  intros Hlines. vm_compute in Hlines. discriminate.
Defined.

Lemma EndTable_rows_witness :
  ∃ self', ArrayItem.EndTable (H := Plain.helpers) two_rows = Ok self'
    ∧ ∃ node cell,
        ArrayItem.table self' = ArrayItem.table two_rows ++ [node]
        ∧ ArrayItem.row self' = []
        ∧ nodes (ArrayItem.base self') = []
        ∧ length (getChildren node) = 1%nat
        ∧ Some cell ∈ getChildren node
        ∧ isType cell "mtd" = true
        ∧ getChildren cell = [Some Examples.b].
Proof.
  apply (EndTable_rows (H := Plain.helpers) two_rows).
  - intros _. by exists "solid".
  - intros Hspacing. vm_compute in Hspacing. discriminate.
Defined.

Lemma ArrayCheck_row_witness :
  ∃ filled self',
    ArrayCheck.cells (H := Plain.helpers) Samples.fresh Samples.entry
      [[Examples.a]; [Examples.b]] = Ok (filled, [CBool false; CBool false])
    ∧ ArrayCheck.checkItem (H := Plain.helpers)
        (ArrayCheck.Push filled [Examples.x]) Samples.cr
      = Ok (self', CBool false)
    ∧ ArrayItem.table (ArrayCheck.array self')
      = [Elem "mtr" ∅
           [Some (Elem "mtd" ∅ [Some Examples.a]);
            Some (Elem "mtd" ∅ [Some Examples.b]);
            Some (Elem "mtd" ∅ [Some Examples.x])]]
    ∧ ArrayItem.row (ArrayCheck.array self') = []
    ∧ nodes (ArrayItem.base (ArrayCheck.array self')) = []
    ∧ ArrayCheck.env self' = ∅.
Proof.
  by apply (ArrayCheck_row (H := Plain.helpers) Samples.fresh
              Samples.entry Samples.cr [[Examples.a]; [Examples.b]]
              [Examples.x]).
Defined.

Lemma ArrayCheck_close_witness :
  ArrayCheck.checkItem (H := Plain.helpers) Samples.fresh Examples.end_foo
  = Ok (ArrayCheck.Mk (ArrayItem.new (H := Plain.helpers)) ∅,
        CList [EItem (Examples.mml (Elem "mtable" ∅ []));
               EItem Examples.end_foo]).
Proof.
  destruct (ArrayCheck_close (H := Plain.helpers) Samples.fresh
              Examples.end_foo)
    as (arr & arr' & framed & Hend & Hrest);
    [reflexivity | discriminate | reflexivity | reflexivity
     | discriminate | discriminate |].
  vm_compute in Hend. injection Hend as <-.
  cbv zeta in Hrest.
  destruct Hrest as (Hframe & _ & _ & _ & styled & node & -> & -> & Hrun).
  vm_compute in Hframe. injection Hframe as <- <-.
  exact Hrun.
Defined.

Lemma replaceNone_trailing_witness :
  ArrayCheck.replaceNone "solid none none" = "solid none none"
  ∧ ArrayCheck.replaceNone "solid none none  " = "solid none".
Proof.
  split.
  - apply (replaceNone_trailing "solid none none"). discriminate.
  - apply (replaceNone_trailing "solid none none  ")
      with (prefix := "solid ") (spaces := "  ");
      [simpl; lia | reflexivity | reflexivity].
Defined.

Lemma flags_exclusive_witness :
  isOpen (Examples.mml Examples.a) = false
  ∧ isClose (Examples.mml Examples.a) = false.
Proof.
  by apply (flags_exclusive (Examples.mml Examples.a)).
Defined.

Lemma PositionItem_checkItem_moves_witness :
  PositionItem.checkItem (H := Plain.helpers) Samples.raise Examples.stop
  = Some (Throw (TexError (Some (MkTexError "MissingBoxFor"
                                   "Missing box for %1" [Some "\raise"]))))
  ∧ (∃ (mml : StackItem) (padded : MmlNode),
       PositionItem.checkItem (H := Plain.helpers) Samples.raise
         (Examples.mml Examples.a) = Some (Ok (CList [EItem mml]))
       ∧ kind mml = K_mml
       ∧ nodes mml = [padded]
       ∧ isType padded "mpadded" = true
       ∧ getChildren padded = [Some Examples.a]
       ∧ getAttribute padded "height" = Some (VStr "2px")
       ∧ getAttribute padded "voffset" = Some (VStr "2px")
       ∧ getAttribute padded "depth" = Some (VStr "-2px"))
  ∧ PositionItem.checkItem (H := Plain.helpers) Samples.moveleft
      (Examples.mml Examples.a)
    = Some (Ok (CList [EItem (Examples.mml (Samples.mspace "-2px"));
                       EItem (Examples.mml Examples.a);
                       EItem (Examples.mml (Samples.mspace "2px"))])).
Proof.
  split; [|split].
  - by apply (PositionItem_checkItem_moves (H := Plain.helpers)
                Samples.raise Examples.stop).
  - by apply (PositionItem_checkItem_moves (H := Plain.helpers)
                Samples.raise (Examples.mml Examples.a)).
  - by apply (PositionItem_checkItem_moves (H := Plain.helpers)
                Samples.moveleft (Examples.mml Examples.a)).
Defined.

Lemma DotsItem_checkItem_choice_witness :
  DotsItem.checkItem (H := Plain.helpers) Samples.texClass Samples.dots
    (Examples.mml Examples.plus)
  = Some (Ok (CList [ENode Samples.cdots; EItem (Examples.mml Examples.plus)]))
  ∧ DotsItem.checkItem (H := Plain.helpers) Samples.texClass Samples.dots
      (Examples.mml Examples.x)
    = Some (Ok (CList [ENode Samples.ldots; EItem (Examples.mml Examples.x)])).
Proof.
  split.
  - apply (DotsItem_checkItem_choice (H := Plain.helpers) Samples.texClass
             Samples.dots (Examples.mml Examples.plus)
             Samples.ldots Samples.cdots); [reflexivity | reflexivity |].
    intros _. by exists Examples.plus.
  - apply (DotsItem_checkItem_choice (H := Plain.helpers) Samples.texClass
             Samples.dots (Examples.mml Examples.x)
             Samples.ldots Samples.cdots); [reflexivity | reflexivity |].
    intros _. by exists Examples.x.
Defined.

Lemma OpenItem_checkItem_close_stop_witness :
  (∃ (mml : StackItem) (atom : MmlNode),
     OpenItem.checkItem (H := Plain.helpers) id Samples.brace
       (Examples.plain K_close []) = Ok (CItem mml)
     ∧ kind mml = K_mml
     ∧ nodes mml = [atom]
     ∧ isType atom "TeXAtom" = true
     ∧ getChildren atom = [Some Examples.a])
  ∧ OpenItem.checkItem (H := Plain.helpers) id Samples.brace Examples.stop
    = Throw (TexError (Some (MkTexError "ExtraOpenMissingClose"
                               "Extra open brace or missing close brace"
                               []))).
Proof.
  split.
  - by apply (OpenItem_checkItem_close_stop (H := Plain.helpers) id
                Samples.brace (Examples.plain K_close [])).
  - by apply (OpenItem_checkItem_close_stop (H := Plain.helpers) id
                Samples.brace Examples.stop).
Defined.

Lemma FnItem_checkItem_shape_witness :
  ∃ between : list StackEntry,
    FnItem.checkItem (H := Plain.helpers) Examples.sin_fn
      (Examples.mml Examples.x)
    = Ok (CList (ENode Examples.sin
                 :: between ++ [EItem (Examples.mml Examples.x)]))
    ∧ (between = [] ∨ between = [ENode FnItem.applyFunctionNode]).
Proof.
  by apply (FnItem_checkItem_shape (H := Plain.helpers) Examples.sin_fn
              (Examples.mml Examples.x) Examples.sin).
Defined.

Lemma SubsupItem_checkItem_script_witness :
  ∃ (mml : StackItem) (top : MmlNode),
    SubsupItem.checkItem (H := Plain.helpers) (Examples.subsup 2)
      (Examples.mml Examples.two) = Ok (CItem mml)
    ∧ kind mml = K_mml
    ∧ nodes mml = [top]
    ∧ isType top "msubsup" = true
    ∧ childAt top 2 = Some Examples.two
    ∧ (∀ j, j ≠ 2%nat → childAt top j = childAt Examples.script_base j)
    ∧ getProperty top = getProperty Examples.script_base.
Proof.
  apply (SubsupItem_checkItem_script (H := Plain.helpers) (Examples.subsup 2)
           (Examples.mml Examples.two) "msubsup" ∅ [Some Examples.a] 2);
    try reflexivity. lia.
Defined.
